(** * Showdesk: the session controller of [frontend/app/page.js] and the
      global-hotkey capture relay of the Electron main process.

    The React component [Home] keeps eight pieces of state and four handlers
    ([analyzeContent], [sendMessage], [refreshSuggestions], [clearChat]).
    Each handler is embedded as a computation over the component state that
    also records the externally visible effects ([fetch], [alert],
    [console.error], [confirm]).  An [async] handler runs synchronously up to
    its [await fetch(...)]; what follows the [await] is kept as a
    continuation that receives the outcome of the request.

    Single operations are studied with the handler run to completion
    ([complete], [step]).  Runs of the page are studied on [Page]: the
    cells together with the handlers suspended at a request, where the
    actions of the user and the replies to the requests in flight
    interleave in any order ([pages_after]). *)

From Stdlib Require Import NArith List Bool String Ascii Lia.
Import ListNotations.

(** ** JavaScript strings *)

(** A JavaScript string is a sequence of UTF-16 code units. *)
Definition str : Type := list N.

(** An ASCII literal of the source. *)
Definition lit (s : string) : str :=
  map N_of_ascii (list_ascii_of_string s).

(** Truthiness of a string: only [''] is falsy. *)
Definition truthy (s : str) : bool :=
  match s with
  | [] => false
  | _ :: _ => true
  end.

(** [a || b] on strings. *)
Definition or_str (a b : str) : str :=
  if truthy a then a else b.

(** [a || b] where [a] may be [undefined]. *)
Definition or_undef (a : option str) (b : str) : str :=
  match a with
  | Some s => or_str s b
  | None => b
  end.

(** WhiteSpace and LineTerminator code units of ECMAScript, the ones
    [String.prototype.trim] strips. *)
Definition is_ws (c : N) : bool :=
  ((9 <=? c) && (c <=? 13) || (c =? 32) || (c =? 160) || (c =? 5760)
   || (8192 <=? c) && (c <=? 8202) || (c =? 8232) || (c =? 8233)
   || (c =? 8239) || (c =? 8287) || (c =? 12288) || (c =? 65279))%N.

Fixpoint trimStart (s : str) : str :=
  match s with
  | [] => []
  | c :: s' => if is_ws c then trimStart s' else s
  end.

Definition trimEnd (s : str) : str := rev (trimStart (rev s)).

Definition trim (s : str) : str := trimEnd (trimStart s).

(** [needle] occurs in [hay] as a contiguous substring. *)
Definition contains (hay needle : str) : Prop :=
  exists pre post, hay = pre ++ needle ++ post.

(** ** Data *)

Module Subject.
Record t : Type := mk
  { subject : str; topic : str; level : str; concepts : list str }.
End Subject.

Inductive Role : Type := user | assistant.

Record Turn : Type := mkTurn { role : Role; content : str }.

(** The JSON bodies of the three endpoints, when [data.success] is truthy. *)
Module Data.
Record analyze : Type := mkAnalyze
  { session_id : str;
    subject : Subject.t;
    suggested_questions : option (list str) }.
Record chat : Type := mkChat { response : str }.
Record suggest : Type := mkSuggest { suggestions : list str }.
End Data.

(** The parsed body [data]: [data.success] truthy with the payload, or falsy
    with the optional [data.detail].  A success body has the fields the
    gateway documents for its endpoint; [suggested_questions] alone is
    optional, as the handler's [|| []] provides for. *)
Inductive Json (A : Type) : Type :=
| Success (data : A)
| Rejected (detail : option str).
Arguments Success {A} data.
Arguments Rejected {A} detail.

(** What [await fetch(...)] followed by [await response.json()] gives: a
    parsed body, or an exception (from either [await]) with its
    [error.message]. *)
Inductive Outcome (A : Type) : Type :=
| Resolved (data : Json A)
| Threw (message : str).
Arguments Resolved {A} data.
Arguments Threw {A} message.

Definition failed {A : Type} (o : Outcome A) : bool :=
  match o with
  | Resolved (Success _) => false
  | _ => true
  end.

Inductive Request : Type :=
| ReqAnalyze (url : str)
| ReqChat (session_id message screenshot : str)
| ReqSuggest (session_id : str).

Inductive Effect : Type :=
| Fetch (r : Request)
| Alert (msg : str)
| ConsoleError (label err : str)
| Confirm (prompt : str).

Definition is_console_error (e : Effect) : bool :=
  match e with ConsoleError _ _ => true | _ => false end.

Definition is_alert (e : Effect) : bool :=
  match e with Alert _ => true | _ => false end.

(** The [useState] cells of [Home]. *)
Record State : Type := mkState
  { youtubeUrl : str;
    sessionId : str;
    subject : option Subject.t;
    loading : bool;
    chatHistory : list Turn;
    message : str;
    suggestions : list str;
    showSuggestions : bool }.

Definition initial : State :=
  {| youtubeUrl := []; sessionId := []; subject := None; loading := false;
     chatHistory := []; message := []; suggestions := [];
     showSuggestions := true |}.

(** ** Computations over the component state *)

Definition M (A : Type) : Type := State -> A * State * list Effect.

Definition ret {A : Type} (a : A) : M A := fun st => (a, st, []).

Definition bind {A B : Type} (m : M A) (k : A -> M B) : M B :=
  fun st =>
    let '(a, st1, e1) := m st in
    let '(b, st2, e2) := k a st1 in
    (b, st2, e1 ++ e2).

Declare Scope js_scope.
Delimit Scope js_scope with js.
Notation "x <- m ;; k" := (bind m (fun x => k))
  (at level 61, m at next level, right associativity) : js_scope.
Notation "m ;; k" := (bind m (fun _ => k))
  (at level 61, right associativity) : js_scope.
Local Open Scope js_scope.

Definition gets {A : Type} (f : State -> A) : M A := fun st => (f st, st, []).
Definition modify (f : State -> State) : M unit := fun st => (tt, f st, []).
Definition emit (e : Effect) : M unit := fun st => (tt, st, [e]).

Definition state_of {A : Type} (r : A * State * list Effect) : State :=
  snd (fst r).
Definition effects_of {A : Type} (r : A * State * list Effect) : list Effect :=
  snd r.
Definition value_of {A : Type} (r : A * State * list Effect) : A :=
  fst (fst r).

(** The state setters returned by [useState]. *)
Definition setYoutubeUrl (v : str) : M unit :=
  modify (fun st =>
    mkState v (sessionId st) (subject st) (loading st) (chatHistory st)
            (message st) (suggestions st) (showSuggestions st)).
Definition setSessionId (v : str) : M unit :=
  modify (fun st =>
    mkState (youtubeUrl st) v (subject st) (loading st) (chatHistory st)
            (message st) (suggestions st) (showSuggestions st)).
Definition setSubject (v : option Subject.t) : M unit :=
  modify (fun st =>
    mkState (youtubeUrl st) (sessionId st) v (loading st) (chatHistory st)
            (message st) (suggestions st) (showSuggestions st)).
Definition setLoading (v : bool) : M unit :=
  modify (fun st =>
    mkState (youtubeUrl st) (sessionId st) (subject st) v (chatHistory st)
            (message st) (suggestions st) (showSuggestions st)).
(** [setChatHistory] is called with a value and with an updater
    [prev => ...]; the updater form covers both. *)
Definition updChatHistory (f : list Turn -> list Turn) : M unit :=
  modify (fun st =>
    mkState (youtubeUrl st) (sessionId st) (subject st) (loading st)
            (f (chatHistory st)) (message st) (suggestions st)
            (showSuggestions st)).
Definition setChatHistory (v : list Turn) : M unit :=
  updChatHistory (fun _ => v).
Definition setMessage (v : str) : M unit :=
  modify (fun st =>
    mkState (youtubeUrl st) (sessionId st) (subject st) (loading st)
            (chatHistory st) v (suggestions st) (showSuggestions st)).
Definition setSuggestions (v : list str) : M unit :=
  modify (fun st =>
    mkState (youtubeUrl st) (sessionId st) (subject st) (loading st)
            (chatHistory st) (message st) v (showSuggestions st)).
Definition setShowSuggestions (v : bool) : M unit :=
  modify (fun st =>
    mkState (youtubeUrl st) (sessionId st) (subject st) (loading st)
            (chatHistory st) (message st) (suggestions st) v).

Definition alert (msg : str) : M unit := emit (Alert msg).
Definition console_error (label err : str) : M unit :=
  emit (ConsoleError label err).
Definition confirm (prompt : str) (answer : bool) : M bool :=
  emit (Confirm prompt) ;; ret answer.

(** An [async] handler: it either returns before issuing a request, or
    suspends at [await fetch(req)] with the rest of its body. *)
Definition Async (D : Type) : Type :=
  M (option (Request * (Outcome D -> M unit))).

Definition return_ {D : Type} : Async D := ret None.
Definition await_fetch {D : Type} (req : Request)
    (k : Outcome D -> M unit) : Async D :=
  ret (Some (req, k)).

(** The handler run to completion on its own, no other handler running in
    between, the request being answered by [o]. *)
Definition complete {D : Type} (h : Async D) (o : Outcome D) : M unit :=
  p <- h ;;
  match p with
  | None => ret tt
  | Some (req, k) => emit (Fetch req) ;; k o
  end.

(** ** The handlers of [page.js] *)

(** The template literal of the welcome message; code unit 34 is the double
    quote, and the last two are the surrogate pair of U+1F680. *)
Definition welcome (s : Subject.t) : str :=
  lit "Great! I've analyzed this " ++ Subject.subject s
  ++ lit " tutorial about " ++ [34%N] ++ Subject.topic s ++ [34%N]
  ++ lit ". I'm ready to help you learn! Ask me anything or use the suggestions below. "
  ++ [55357%N; 56960%N].

Definition analyzeContent : Async Data.analyze :=
  url <- gets youtubeUrl ;;
  if negb (truthy url) then return_ else
  setLoading true ;;
  setChatHistory [] ;;
  setSuggestions [] ;;
  setSubject None ;;
  await_fetch (ReqAnalyze url) (fun o =>
    match o with
    | Resolved (Success data) =>
        setSessionId (Data.session_id data) ;;
        setSubject (Some (Data.subject data)) ;;
        setSuggestions (match Data.suggested_questions data with
                        | Some qs => qs
                        | None => []
                        end) ;;
        setShowSuggestions true ;;
        setChatHistory
          [ {| role := assistant; content := welcome (Data.subject data) |} ]
    | Resolved (Rejected detail) =>
        alert (lit "Error: " ++ or_undef detail (lit "Unknown error"))
    | Threw msg =>
        alert (lit "Error connecting to API: " ++ msg)
    end ;;
    setLoading false).

Definition sendMessage (messageText : option str) : Async Data.chat :=
  message_ <- gets message ;;
  sessionId_ <- gets sessionId ;;
  let textToSend := or_undef messageText message_ in
  if negb (truthy (trim textToSend)) || negb (truthy sessionId_)
  then return_ else
  let userMessage := {| role := user; content := textToSend |} in
  updChatHistory (fun prev => prev ++ [userMessage]) ;;
  setMessage [] ;;
  setLoading true ;;
  setShowSuggestions false ;;
  await_fetch (ReqChat sessionId_ textToSend []) (fun o =>
    match o with
    | Resolved (Success data) =>
        let assistantMessage :=
          {| role := assistant; content := Data.response data |} in
        updChatHistory (fun prev => prev ++ [assistantMessage])
    | Resolved (Rejected _) =>
        alert (lit "Error getting response")
    | Threw msg =>
        alert (lit "Error: " ++ msg)
    end ;;
    setLoading false).

Definition refreshSuggestions : Async Data.suggest :=
  sessionId_ <- gets sessionId ;;
  if negb (truthy sessionId_) then return_ else
  setLoading true ;;
  await_fetch (ReqSuggest sessionId_) (fun o =>
    match o with
    | Resolved (Success data) =>
        setSuggestions (Data.suggestions data) ;;
        setShowSuggestions true
    | Resolved (Rejected _) => ret tt
    | Threw msg =>
        console_error (lit "Error refreshing suggestions:") msg
    end ;;
    setLoading false).

(** [answer] is what the user replies to the [confirm] dialog. *)
Definition clearChat (answer : bool) : M unit :=
  ok <- confirm (lit "Start a new learning session?") answer ;;
  if ok then
    setSessionId [] ;;
    setSubject None ;;
    setChatHistory [] ;;
    setSuggestions [] ;;
    setYoutubeUrl [] ;;
    setShowSuggestions false
  else ret tt.

(** The [onClick] of the suggestions header button. *)
Definition toggleSuggestions : M unit :=
  v <- gets showSuggestions ;;
  setShowSuggestions (negb v).

(** ** Controller operations *)

(** The operations the presentation layer dispatches, each with what the
    environment answers: the outcome of the request, or the reply to the
    confirmation dialog.  [StartSession url] is the [onChange] of the URL
    input followed by [analyzeContent]. *)
Inductive Op : Type :=
| StartSession (url : str) (o : Outcome Data.analyze)
| SendMessage (messageText : option str) (o : Outcome Data.chat)
| RefreshSuggestions (o : Outcome Data.suggest)
| ResetSession (answer : bool)
| ToggleSuggestionsVisible.

Definition perform (op : Op) : M unit :=
  match op with
  | StartSession url o => setYoutubeUrl url ;; complete analyzeContent o
  | SendMessage messageText o => complete (sendMessage messageText) o
  | RefreshSuggestions o => complete refreshSuggestions o
  | ResetSession answer => clearChat answer
  | ToggleSuggestionsVisible => toggleSuggestions
  end.

Definition step (op : Op) (st : State) : State := state_of (perform op st).

(** The states observed after each operation of a sequence, in order. *)
Fixpoint states_after (ops : list Op) (st : State) : list State :=
  match ops with
  | [] => []
  | op :: ops' => step op st :: states_after ops' (step op st)
  end.

(** The three conditions of the session invariant. *)
Definition no_id (st : State) : bool := negb (truthy (sessionId st)).
Definition no_subject (st : State) : bool :=
  match subject st with None => true | Some _ => false end.
Definition no_history (st : State) : bool :=
  match chatHistory st with [] => true | _ :: _ => false end.

Definition session_consistent (st : State) : Prop :=
  no_id st = no_subject st /\ no_subject st = no_history st.

(** The URL form is rendered under [{!sessionId && ...}]: the page offers
    [analyzeContent] only while no session is active. *)
Definition offered (st : State) (op : Op) : bool :=
  match op with
  | StartSession _ _ => negb (truthy (sessionId st))
  | _ => true
  end.

Fixpoint all_offered (ops : list Op) (st : State) : bool :=
  match ops with
  | [] => true
  | op :: ops' => offered st op && all_offered ops' (step op st)
  end.

(** A successful analysis carries a non-empty session identifier. *)
Definition issues_id (op : Op) : bool :=
  match op with
  | StartSession _ (Resolved (Success data)) => truthy (Data.session_id data)
  | _ => true
  end.

(** ** The hotkey relay of the Electron main process *)

Module Hotkey.
Section Relay.

(** The [Buffer] returned by [screenshot()], its [toString('base64')], the
    parsed body of the capture endpoint and the truthiness of its
    [issue_detected] field. *)
Variable Image : Type.
Variable base64 : Image -> str.
Variable Body : Type.
Variable issue_detected : Body -> bool.

Inductive Effect : Type :=
| Log (msg : str)
| Post (screenshot : str)
| Send (channel : str) (data : Body).

(** [capture] is what [await screenshot()] gives ([None] when it rejects)
    and [reply] what the chain [fetch(...).then(res => res.json())] gives
    ([None] when either promise rejects). *)
Definition on_hotkey (capture : option Image) (reply : option Body)
  : list Effect :=
  Log (lit "Hotkey pressed!") ::
  match capture with
  | None => []
  | Some img =>
      Post (base64 img) ::
      match reply with
      | None => []
      | Some data =>
          if issue_detected data
          then [Send (lit "show-notification") data]
          else []
      end
  end.

(** The messages sent to the renderer, with their channel. *)
Fixpoint notifications (es : list Effect) : list (str * Body) :=
  match es with
  | [] => []
  | Send channel data :: es' => (channel, data) :: notifications es'
  | _ :: es' => notifications es'
  end.

End Relay.

Arguments Log {Body} msg.
Arguments Post {Body} screenshot.
Arguments Send {Body} channel data.
Arguments on_hotkey {Image} base64 {Body} issue_detected capture reply.
Arguments notifications {Body} es.

End Hotkey.

(** ** The rest of the page: event handlers of the markup *)

Fixpoint str_eqb (a b : str) : bool :=
  match a, b with
  | [], [] => true
  | x :: a', y :: b' => (x =? y)%N && str_eqb a' b'
  | _, _ => false
  end.

(** [onKeyPress] of the URL input: [e.key === 'Enter' && analyzeContent()].
    The input carries no [disabled] attribute. *)
Definition urlKeyPress (key : str) : Async Data.analyze :=
  if str_eqb key (lit "Enter") then analyzeContent else return_.

(** [onClick] of a suggestion: [sendMessage(suggestion)], which returns at
    its [await], and then [setShowSuggestions(false)]. *)
Definition clickSuggestion (suggestion : str) : Async Data.chat :=
  p <- sendMessage (Some suggestion) ;;
  setShowSuggestions false ;;
  ret p.

(** A handler suspended at its request, then [between] (handlers run while
    the request is outstanding), then the reply [o]. *)
Definition resume_after {D : Type} (h : Async D) (between : M unit)
    (o : Outcome D) : M unit :=
  p <- h ;;
  match p with
  | None => ret tt
  | Some (req, k) => emit (Fetch req) ;; between ;; k o
  end.

(** ** The rest of the page: what is rendered *)

(** [{sessionId && <button onClick={clearChat}>}]. *)
Definition showsNewSession (st : State) : bool := truthy (sessionId st).

(** [{!sessionId && ...}], the URL form. *)
Definition showsUrlForm (st : State) : bool := negb (truthy (sessionId st)).

(** [disabled={loading || !youtubeUrl}] of the start button. *)
Definition analyzeDisabled (st : State) : bool :=
  loading st || negb (truthy (youtubeUrl st)).

(** [{subject && ...}], the subject bar with the refresh button. *)
Definition showsSubjectBar (st : State) : bool :=
  match subject st with Some _ => true | None => false end.

(** [disabled={loading}] of the refresh button and of the message input. *)
Definition refreshDisabled (st : State) : bool := loading st.
Definition inputDisabled (st : State) : bool := loading st.

(** [{sessionId && ...}], the chat area and the suggestions sidebar. *)
Definition showsChat (st : State) : bool := truthy (sessionId st).

(** [disabled={loading || !message.trim()}] of the send button. *)
Definition sendDisabled (st : State) : bool :=
  loading st || negb (truthy (trim (message st))).

(** The start, send and refresh buttons and the message input are all
    disabled. *)
Definition controlsDisabled (st : State) : bool :=
  analyzeDisabled st && sendDisabled st && refreshDisabled st
  && inputDisabled st.



Definition is_user (m : Turn) : bool :=
  match role m with user => true | assistant => false end.

Definition is_assistant (m : Turn) : bool :=
  match role m with assistant => true | user => false end.

(** [chatHistory.filter(m => m.role === 'user').length]. *)
Definition questionsAsked (st : State) : nat :=
  List.length (filter is_user (chatHistory st)).

Definition answersGiven (st : State) : nat :=
  List.length (filter is_assistant (chatHistory st)).

(** [{c && 'text'}] renders the text when [c] holds and nothing otherwise. *)
Definition and_text (c : bool) (text : str) : list str :=
  if c then [text] else [].

(** The icons of the subject bar, one conditional per line of the markup,
    as UTF-16 code units. *)
Definition subjectIcons (s : Subject.t) : list str :=
  and_text (str_eqb (Subject.subject s) (lit "coding")) [55357; 56507]%N
  ++ and_text (str_eqb (Subject.subject s) (lit "history")) [55357; 56538]%N
  ++ and_text (str_eqb (Subject.subject s) (lit "science")) [55357; 56620]%N
  ++ and_text (str_eqb (Subject.subject s) (lit "language"))
       [55357; 56803; 65039]%N
  ++ and_text (str_eqb (Subject.subject s) (lit "math")) [55357; 56610]%N
  ++ and_text
       (negb (existsb (str_eqb (Subject.subject s))
                [lit "coding"; lit "history"; lit "science"; lit "language";
                 lit "math"]))
       [55357; 56534]%N.

(** ** Properties of the states a run goes through *)

Definition is_fetch (e : Effect) : bool :=
  match e with Fetch _ => true | _ => false end.

(** Without a session the page holds no session data at all. *)
Definition blank_without_session (st : State) : Prop :=
  sessionId st = [] ->
  subject st = None /\ chatHistory st = [] /\ suggestions st = [].

(** The history, when there is one, opens with the welcome turn of the
    stored subject. *)
Definition welcomed (st : State) : Prop :=
  match subject st, chatHistory st with
  | None, [] => True
  | Some s, t :: _ => t = {| role := assistant; content := welcome s |}
  | _, _ => False
  end.

(** Operations that neither start nor end a session. *)
Definition within_session (op : Op) : bool :=
  match op with
  | StartSession _ _ => false
  | ResetSession answer => negb answer
  | _ => true
  end.

(** ** Requests in flight *)

(** The rest of an [async] handler, waiting for the reply to its request. *)
Inductive Pending : Type :=
| AwaitAnalyze (k : Outcome Data.analyze -> M unit)
| AwaitChat (k : Outcome Data.chat -> M unit)
| AwaitSuggest (k : Outcome Data.suggest -> M unit).

(** The component between two events: its cells and the handlers suspended
    at a request, oldest first. *)
Record Page : Type := mkPage { cells : State; outstanding : list Pending }.

Definition fresh : Page := {| cells := initial; outstanding := [] |}.

(** What the user can do on the page.  [DoStart url] is the [onChange] of
    the URL input followed by [analyzeContent], and [DoTypeMessage] the
    [onChange] of the message input. *)
Inductive Action : Type :=
| DoStart (url : str)
| DoSend (messageText : option str)
| DoClickSuggestion (suggestion : str)
| DoRefresh
| DoReset (answer : bool)
| DoToggle
| DoTypeMessage (text : str).

Inductive Reply : Type :=
| ReplyAnalyze (o : Outcome Data.analyze)
| ReplyChat (o : Outcome Data.chat)
| ReplySuggest (o : Outcome Data.suggest).

(** An event of a run: an action of the user, or the reply to the [i]-th
    request in flight.  Replies come in any order. *)
Inductive Event : Type :=
| Act (a : Action)
| Deliver (i : nat) (r : Reply).

(** A handler runs up to its [await] and is set aside with its request. *)
Definition suspend {D : Type} (wrap : (Outcome D -> M unit) -> Pending)
    (h : Async D) (p : Page) : Page :=
  {| cells := state_of (h (cells p));
     outstanding :=
       outstanding p
       ++ match value_of (h (cells p)) with
          | Some (_, k) => [wrap k]
          | None => []
          end |}.

Definition sync (m : M unit) (p : Page) : Page :=
  {| cells := state_of (m (cells p)); outstanding := outstanding p |}.

Definition act (a : Action) (p : Page) : Page :=
  match a with
  | DoStart url => suspend AwaitAnalyze (setYoutubeUrl url ;; analyzeContent) p
  | DoSend messageText => suspend AwaitChat (sendMessage messageText) p
  | DoClickSuggestion s => suspend AwaitChat (clickSuggestion s) p
  | DoRefresh => suspend AwaitSuggest refreshSuggestions p
  | DoReset answer => sync (clearChat answer) p
  | DoToggle => sync toggleSuggestions p
  | DoTypeMessage text => sync (setMessage text) p
  end.

Fixpoint remove_nth {A : Type} (i : nat) (l : list A) : list A :=
  match l, i with
  | [], _ => []
  | _ :: l', O => l'
  | x :: l', S i' => x :: remove_nth i' l'
  end.

(** The [i]-th suspended handler resumes with its reply; a reply that
    answers no request in flight, or one of another endpoint, does not
    occur and changes nothing. *)
Definition deliver (i : nat) (r : Reply) (p : Page) : Page :=
  match nth_error (outstanding p) i, r with
  | Some (AwaitAnalyze k), ReplyAnalyze o
  | Some (AwaitChat k), ReplyChat o
  | Some (AwaitSuggest k), ReplySuggest o =>
      {| cells := state_of (k o (cells p));
         outstanding := remove_nth i (outstanding p) |}
  | _, _ => p
  end.

Definition happen (e : Event) (p : Page) : Page :=
  match e with
  | Act a => act a p
  | Deliver i r => deliver i r p
  end.

(** The pages observed after each event of a run, in order. *)
Fixpoint pages_after (es : list Event) (p : Page) : list Page :=
  match es with
  | [] => []
  | e :: es' => happen e p :: pages_after es' (happen e p)
  end.

(** [ok] holds of every event of the run, in the page it happens in. *)
Fixpoint along (ok : Page -> Event -> bool) (es : list Event) (p : Page)
  : bool :=
  match es with
  | [] => true
  | e :: es' => ok p e && along ok es' (happen e p)
  end.

Definition is_chat (pd : Pending) : bool :=
  match pd with AwaitChat _ => true | _ => false end.

Definition is_suggest (pd : Pending) : bool :=
  match pd with AwaitSuggest _ => true | _ => false end.

(** The URL form, and with it [analyzeContent], is offered only while no
    session is active. *)
Definition start_offered (p : Page) (e : Event) : bool :=
  match e with
  | Act (DoStart _) => showsUrlForm (cells p)
  | _ => true
  end.

(** No reset is confirmed while a request of the given kind is in
    flight. *)
Definition reset_clear_of (kind : Pending -> bool) (p : Page) (e : Event)
  : bool :=
  match e with
  | Act (DoReset true) => negb (existsb kind (outstanding p))
  | _ => true
  end.

(** The user acts only when no request is in flight. *)
Definition one_at_a_time (p : Page) (e : Event) : bool :=
  match e with
  | Act _ => match outstanding p with [] => true | _ :: _ => false end
  | Deliver _ _ => true
  end.

(** A successful analysis carries a non-empty session identifier. *)
Definition names_session (e : Event) : bool :=
  match e with
  | Deliver _ (ReplyAnalyze (Resolved (Success data))) =>
      truthy (Data.session_id data)
  | _ => true
  end.

Definition is_act (e : Event) : bool :=
  match e with Act _ => true | Deliver _ _ => false end.

(** The suspended handlers are continuations of the page's own handlers. *)
Definition from_handler (pd : Pending) : Prop :=
  match pd with
  | AwaitAnalyze k =>
      exists st req, value_of (analyzeContent st) = Some (req, k)
  | AwaitChat k =>
      exists messageText st req,
        value_of (sendMessage messageText st) = Some (req, k)
  | AwaitSuggest k =>
      exists st req, value_of (refreshSuggestions st) = Some (req, k)
  end.

(** The events by which an operation runs on its own: the action and, at
    once, the reply to its request. *)
Definition alone (op : Op) : list Event :=
  match op with
  | StartSession url o => [Act (DoStart url); Deliver 0 (ReplyAnalyze o)]
  | SendMessage messageText o =>
      [Act (DoSend messageText); Deliver 0 (ReplyChat o)]
  | RefreshSuggestions o => [Act DoRefresh; Deliver 0 (ReplySuggest o)]
  | ResetSession answer => [Act (DoReset answer)]
  | ToggleSuggestionsVisible => [Act DoToggle]
  end.

(** The page after all the events of a run. *)
Definition page_after (es : list Event) (p : Page) : Page :=
  fold_left (fun q e => happen e q) es p.

(** ** Invariants of runs with requests in flight *)

(** A page whose suspended handlers are its own, whose cells satisfy the
    session invariant and open the history with the welcome turn, and
    where a chat request is in flight only under a session. *)
Definition coherent (p : Page) : Prop :=
  Forall from_handler (outstanding p)
  /\ session_consistent (cells p)
  /\ welcomed (cells p)
  /\ (existsb is_chat (outstanding p) = true ->
      truthy (sessionId (cells p)) = true).

Definition is_chat_or_suggest (pd : Pending) : bool :=
  is_chat pd || is_suggest pd.

(** A coherent page that, without a session, has no suggestions either,
    and where a suggestions request is in flight only under a session. *)
Definition tidy (p : Page) : Prop :=
  coherent p
  /\ (sessionId (cells p) = [] -> suggestions (cells p) = [])
  /\ (existsb is_suggest (outstanding p) = true ->
      truthy (sessionId (cells p)) = true).

(** At most one request in flight, and room in the history for its
    answer. *)
Definition paced (p : Page) : Prop :=
  Forall from_handler (outstanding p)
  /\ List.length (outstanding p) <= 1
  /\ answersGiven (cells p)
     + (if existsb is_chat (outstanding p) then 1 else 0)
     <= S (questionsAsked (cells p)).

(** What the synchronous part of a chat handler does to the session. *)
Definition chat_prefix_facts
    (h : Async Data.chat) (st : State) : Prop :=
  sessionId (state_of (h st)) = sessionId st
  /\ subject (state_of (h st)) = subject st
  /\ suggestions (state_of (h st)) = suggestions st
  /\ ((value_of (h st) = None
       /\ chatHistory (state_of (h st)) = chatHistory st
       /\ loading (state_of (h st)) = loading st)
      \/ (value_of (h st) <> None
          /\ truthy (sessionId st) = true
          /\ loading (state_of (h st)) = true
          /\ exists t,
               role t = user
               /\ chatHistory (state_of (h st)) = chatHistory st ++ [t])).

(** ** Scenario data *)

(** The analysis reply of the scenario of the specification. *)
Definition loops_reply : Data.analyze :=
  {| Data.session_id := lit "s1";
     Data.subject :=
       {| Subject.subject := lit "coding"; Subject.topic := lit "Loops";
          Subject.level := lit "beginner";
          Subject.concepts := [lit "for"; lit "while"] |};
     Data.suggested_questions := Some [lit "What is a loop?"] |}.

(** The state the scenario's session start leaves behind, without the
    welcome turn's text spelled out. *)
Definition in_session : State :=
  {| youtubeUrl := lit "https://x/watch?v=abc"; sessionId := lit "s1";
     subject := Some (Data.subject loops_reply); loading := false;
     chatHistory :=
       [ {| role := assistant;
            content := welcome (Data.subject loops_reply) |} ];
     message := []; suggestions := [lit "What is a loop?"];
     showSuggestions := true |}.

(** The same session with a question typed in the message box. *)
Definition drafting : State :=
  {| youtubeUrl := lit "https://x/watch?v=abc"; sessionId := lit "s1";
     subject := Some (Data.subject loops_reply); loading := false;
     chatHistory :=
       [ {| role := assistant;
            content := welcome (Data.subject loops_reply) |} ];
     message := lit "why?"; suggestions := [lit "What is a loop?"];
     showSuggestions := true |}.

(** The URL typed in, nothing else done yet. *)
Definition url_typed : State :=
  {| youtubeUrl := lit "https://x/watch?v=abc"; sessionId := [];
     subject := None; loading := false; chatHistory := []; message := [];
     suggestions := []; showSuggestions := true |}.

(** A run through all five operations. *)
Definition sample_ops : list Op :=
  [ StartSession (lit "https://x/watch?v=abc")
      (Resolved (Success loops_reply));
    SendMessage (Some (lit "why?"))
      (Resolved (Rejected (Some (lit "rate limited"))));
    RefreshSuggestions (Threw (lit "Failed to fetch"));
    ToggleSuggestionsVisible;
    ResetSession true ].

(** A session is started, a question is sent, the session is reset while
    the question is in flight, and then the answer arrives. *)
Definition reset_before_answer : list Event :=
  [ Act (DoStart (lit "https://x/watch?v=abc"));
    Deliver 0 (ReplyAnalyze (Resolved (Success loops_reply)));
    Act (DoSend (Some (lit "why?")));
    Act (DoReset true);
    Deliver 0 (ReplyChat (Resolved (Success (Data.mkChat (lit "Because."))))) ].

(** Two questions in flight at once, answered in the reverse order, the
    suggestions toggled meanwhile, and a reset once both are answered. *)
Definition overlapping_questions : list Event :=
  [ Act (DoStart (lit "https://x/watch?v=abc"));
    Deliver 0 (ReplyAnalyze (Resolved (Success loops_reply)));
    Act (DoSend (Some (lit "why?")));
    Act (DoClickSuggestion (lit "What is a loop?"));
    Act DoToggle;
    Deliver 1 (ReplyChat (Resolved (Success (Data.mkChat (lit "A loop repeats.")))));
    Deliver 0 (ReplyChat (Threw (lit "Failed to fetch")));
    Act DoRefresh;
    Deliver 0 (ReplySuggest (Resolved (Success (Data.mkSuggest []))));
    Act (DoReset true) ].

(** ** Auxiliary facts *)

Lemma trimStart_nil_iff (s : str) :
  trimStart s = [] <-> forallb is_ws s = true.
Proof.
  induction s as [| c s IH]; simpl.
  - tauto.
  - destruct (is_ws c); simpl.
    + exact IH.
    + split; discriminate.
Qed.

Lemma trimStart_all_ws (s : str) :
  forallb is_ws (trimStart s) = true <-> forallb is_ws s = true.
Proof.
  induction s as [| c s IH]; simpl.
  - tauto.
  - destruct (is_ws c) eqn:Hc; simpl.
    + exact IH.
    + rewrite Hc. simpl. tauto.
Qed.

Lemma forallb_rev' (f : N -> bool) (s : str) :
  forallb f (rev s) = true <-> forallb f s = true.
Proof.
  rewrite !forallb_forall. split; intros H x Hx; apply H.
  - apply -> in_rev. exact Hx.
  - apply <- in_rev. exact Hx.
Qed.

(** [trim] returns [''] exactly on the strings made of white space only. *)
Lemma trim_nil_iff (s : str) :
  trim s = [] <-> forallb is_ws s = true.
Proof.
  unfold trim, trimEnd.
  rewrite <- trimStart_all_ws, <- forallb_rev', <- trimStart_nil_iff.
  split; intros H.
  - apply (f_equal (@rev N)) in H. rewrite rev_involutive in H. exact H.
  - rewrite H. reflexivity.
Qed.

Lemma contains_intro (pre needle post : str) :
  contains (pre ++ needle ++ post) needle.
Proof. exists pre, post. reflexivity. Qed.

(** Unfolds a handler down to the state it computes. *)
Ltac run :=
  unfold step, perform, complete, analyzeContent, sendMessage,
    refreshSuggestions, clearChat, toggleSuggestions, confirm, return_,
    await_fetch, alert, console_error, setYoutubeUrl, setSessionId,
    setSubject, setLoading, setChatHistory, updChatHistory, setMessage,
    setSuggestions, setShowSuggestions, bind, ret, gets, modify, emit,
    state_of, effects_of, value_of in *;
  cbn [fst snd youtubeUrl sessionId subject loading chatHistory message
       suggestions showSuggestions app negb] in *.

(** ** The session invariant *)

Lemma no_history_snoc (h : list Turn) (t : Turn) :
  match h ++ [t] with [] => true | _ :: _ => false end = false.
Proof. destruct h; reflexivity. Qed.

(** Every operation the page offers keeps the three conditions aligned,
    provided a successful analysis names its session. *)
Lemma step_consistent (op : Op) (st : State) :
  session_consistent st ->
  offered st op = true ->
  issues_id op = true ->
  session_consistent (step op st).
Proof.
  unfold session_consistent, no_id, no_subject, no_history.
  destruct st as [url sid subj busy hist msg sugg vis].
  destruct op as [u o | mt o | o | answer |]; cbn [offered issues_id];
    intros [H1 H2] Hoff Hid; run.
  - destruct u as [| c u]; cbn.
    + split; assumption.
    + destruct o as [[data | detail] | m]; cbn.
      * rewrite Hid. split; reflexivity.
      * destruct sid; [split; reflexivity | discriminate].
      * destruct sid; [split; reflexivity | discriminate].
  - destruct (negb (truthy (trim (or_undef mt msg))) || negb (truthy sid))
      eqn:Hguard; cbn.
    + split; assumption.
    + apply orb_false_elim in Hguard. destruct Hguard as [_ Hsid].
      destruct sid; [discriminate |].
      destruct subj; [| discriminate].
      destruct o as [[data | detail] | m]; cbn;
        rewrite ?no_history_snoc; split; reflexivity.
  - destruct sid as [| c sid]; cbn.
    + split; assumption.
    + destruct o as [[data | detail] | m]; cbn; split; assumption.
  - destruct answer; cbn; split; assumption || reflexivity.
  - split; assumption.
Qed.

Lemma states_after_consistent (ops : list Op) :
  forall st,
    session_consistent st ->
    all_offered ops st = true ->
    forallb issues_id ops = true ->
    Forall session_consistent (states_after ops st).
Proof.
  induction ops as [| op ops IH]; intros st Hst Hoff Hid; cbn.
  - constructor.
  - cbn in Hoff, Hid.
    apply andb_prop in Hoff. destruct Hoff as [Hop Hoff].
    apply andb_prop in Hid. destruct Hid as [Hi Hid].
    assert (Hnext : session_consistent (step op st))
      by (apply step_consistent; assumption).
    constructor; [exact Hnext | apply IH; assumption].
Qed.

Lemma initial_consistent : session_consistent initial.
Proof. split; reflexivity. Qed.

(** Without a session identifier in the reply the welcome turn and the
    subject are set under [sessionId == '']. *)
Lemma empty_identifier_breaks_consistency :
  ~ session_consistent
      (step (StartSession (lit "https://x/watch?v=abc")
               (Resolved (Success
                  {| Data.session_id := [];
                     Data.subject := Data.subject loops_reply;
                     Data.suggested_questions := None |})))
            initial).
Proof. intros [Hid _]. vm_compute in Hid. discriminate. Qed.

(** Run on its own while a session is active, which the page does not
    offer, [analyzeContent] with a failing request clears the subject and
    the history and keeps the session identifier. *)
Lemma start_over_session_breaks_consistency :
  ~ Forall session_consistent
      (states_after
         [ StartSession (lit "https://x/watch?v=abc")
             (Resolved (Success loops_reply));
           StartSession (lit "https://x/watch?v=abc")
             (Threw (lit "Failed to fetch")) ]
         initial).
Proof.
  intros H. cbn [states_after] in H.
  apply Forall_inv_tail, Forall_inv in H.
  destruct H as [Hid _]. vm_compute in Hid. discriminate.
Qed.

(** ** Starting a session *)

(** The scenario of the specification, run from the initial page. *)
Example start_scenario :
  step (StartSession (lit "https://x/watch?v=abc")
          (Resolved (Success loops_reply))) initial = in_session.
Proof. reflexivity. Qed.

(** C2: when [analyzeContent] runs with no session active and its request
    fails (the call throws, or the body is not a success), [sessionId] is
    still [''] afterwards and nothing of a session has been set: the state
    is the one the handler suspended in, with [loading] cleared, so none of
    the assignments of the success branch took place; the error is shown in
    an [alert]; and from a page without session data the whole state is
    unchanged. *)
Theorem C2_failed_start_creates_nothing
    (st : State) (o : Outcome Data.analyze) :
  truthy (youtubeUrl st) = true ->
  failed o = true ->
  sessionId st = [] ->
  let suspended := state_of (analyzeContent st) in
  let r := complete analyzeContent o st in
  sessionId (state_of r) = []
  /\ subject (state_of r) = None
  /\ chatHistory (state_of r) = []
  /\ suggestions (state_of r) = []
  /\ showSuggestions (state_of r) = showSuggestions st
  /\ state_of r = state_of (setLoading false suspended)
  /\ (exists msg,
        effects_of r = [Fetch (ReqAnalyze (youtubeUrl st)); Alert msg])
  /\ (subject st = None -> chatHistory st = [] -> suggestions st = [] ->
      loading st = false -> state_of r = st).
Proof.
  destruct st as [url sid subj busy hist msg sugg vis].
  cbn [youtubeUrl sessionId subject chatHistory suggestions loading
       showSuggestions].
  intros Hurl Hfail Hsid. subst sid.
  destruct url as [| c url]; [discriminate |].
  destruct o as [[data | detail] | m]; [discriminate | |]; run; cbn;
    (repeat split; try reflexivity;
     [ eexists; reflexivity | intros; subst; reflexivity ]).
Qed.

Lemma C2_failed_start_creates_nothing_witness :
  truthy (youtubeUrl url_typed) = true /\
  failed (Resolved (Rejected (Some (lit "video unavailable")))
            : Outcome Data.analyze) = true /\
  sessionId url_typed = [] /\
  state_of (complete analyzeContent
              (Resolved (Rejected (Some (lit "video unavailable"))))
              url_typed) = url_typed.
Proof.
  split; [reflexivity | split; [reflexivity | split; [reflexivity |]]].
  apply (C2_failed_start_creates_nothing url_typed
           (Resolved (Rejected (Some (lit "video unavailable"))))
           eq_refl eq_refl eq_refl); reflexivity.
Defined.

Lemma welcome_names_subject (s : Subject.t) :
  contains (welcome s) (Subject.subject s).
Proof. unfold welcome. apply contains_intro. Qed.

Lemma welcome_names_topic (s : Subject.t) :
  contains (welcome s) (Subject.topic s).
Proof.
  unfold welcome.
  exists (lit "Great! I've analyzed this " ++ Subject.subject s
          ++ lit " tutorial about " ++ [34%N]).
  eexists. rewrite <- !app_assoc. reflexivity.
Qed.

(** C7: when [analyzeContent] runs with a non-empty URL and the body is a
    success, then afterwards [sessionId] and [subject] are the returned
    ones, [suggestions] is [suggested_questions], or empty when that field
    is absent, [showSuggestions] is true, and the history is exactly one
    assistant turn, the welcome text, in which the subject's [subject] and
    [topic] strings occur. *)
Theorem C7_successful_start (st : State) (data : Data.analyze) :
  truthy (youtubeUrl st) = true ->
  let st' := state_of (complete analyzeContent (Resolved (Success data)) st) in
  sessionId st' = Data.session_id data
  /\ subject st' = Some (Data.subject data)
  /\ suggestions st' = match Data.suggested_questions data with
                       | Some qs => qs
                       | None => []
                       end
  /\ showSuggestions st' = true
  /\ chatHistory st' =
       [ {| role := assistant; content := welcome (Data.subject data) |} ]
  /\ contains (welcome (Data.subject data))
              (Subject.subject (Data.subject data))
  /\ contains (welcome (Data.subject data))
              (Subject.topic (Data.subject data)).
Proof.
  destruct st as [url sid subj busy hist msg sugg vis].
  cbn [youtubeUrl]. intros Hurl.
  destruct url as [| c url]; [discriminate |].
  run.
  repeat split; [apply welcome_names_subject | apply welcome_names_topic].
Qed.

Lemma C7_successful_start_witness :
  truthy (youtubeUrl url_typed) = true /\
  state_of (complete analyzeContent (Resolved (Success loops_reply))
              url_typed) = in_session /\
  contains (welcome (Data.subject loops_reply)) (lit "coding") /\
  contains (welcome (Data.subject loops_reply)) (lit "Loops").
Proof.
  split; [reflexivity | split; [reflexivity |]].
  pose proof (C7_successful_start url_typed loops_reply eq_refl) as H.
  cbv zeta in H.
  destruct H as (_ & _ & _ & _ & _ & Hs & Ht).
  split; [exact Hs | exact Ht].
Defined.

(** ** Sending a message *)

Lemma sendMessage_issues (st : State) (messageText : option str) :
  truthy (trim (or_undef messageText (message st))) = true ->
  truthy (sessionId st) = true ->
  negb (truthy (trim (or_undef messageText (message st))))
  || negb (truthy (sessionId st)) = false.
Proof. intros -> ->. reflexivity. Qed.

(** C3: when [sendMessage] runs with a text that is not blank and a session
    is active, the handler suspends at its request with the user turn
    already appended to the history; and if the request fails, the history
    afterwards is still the old one followed by the user turn, with no
    assistant turn, and an [alert] has been shown. *)
Theorem C3_optimistic_append
    (st : State) (messageText : option str) (o : Outcome Data.chat) :
  let text := or_undef messageText (message st) in
  let userMessage := {| role := user; content := text |} in
  truthy (trim text) = true ->
  truthy (sessionId st) = true ->
  (exists k,
     value_of (sendMessage messageText st)
     = Some (ReqChat (sessionId st) text [], k))
  /\ chatHistory (state_of (sendMessage messageText st))
     = chatHistory st ++ [userMessage]
  /\ (failed o = true ->
      chatHistory (state_of (complete (sendMessage messageText) o st))
      = chatHistory st ++ [userMessage]
      /\ exists msg,
           effects_of (complete (sendMessage messageText) o st)
           = [Fetch (ReqChat (sessionId st) text []); Alert msg]).
Proof.
  intros text userMessage Htext Hsid.
  pose proof (sendMessage_issues st messageText Htext Hsid) as Hguard.
  subst text userMessage.
  destruct st as [url sid subj busy hist msg sugg vis].
  run. rewrite Hguard. cbn.
  split; [eexists; reflexivity | split; [reflexivity |]].
  intros Hfail.
  destruct o as [[data | detail] | m]; [discriminate | |]; cbn;
    (split; [reflexivity | eexists; reflexivity]).
Qed.

Lemma C3_optimistic_append_witness :
  truthy (trim (lit "why?")) = true /\
  truthy (sessionId in_session) = true /\
  chatHistory
    (state_of (complete (sendMessage (Some (lit "why?")))
                 (Resolved (Rejected (Some (lit "rate limited"))))
                 in_session))
  = chatHistory in_session ++ [ {| role := user; content := lit "why?" |} ].
Proof.
  split; [reflexivity | split; [reflexivity |]].
  apply (C3_optimistic_append in_session (Some (lit "why?"))
           (Resolved (Rejected (Some (lit "rate limited"))))
           eq_refl eq_refl).
  reflexivity.
Defined.

(** C9: every request [sendMessage] issues is a chat request whose
    [screenshot] field is the empty string, whatever the text, the state
    and the outcome. *)
Theorem C9_chat_screenshot_empty
    (st : State) (messageText : option str) (o : Outcome Data.chat)
    (r : Request) :
  In (Fetch r) (effects_of (complete (sendMessage messageText) o st)) ->
  r = ReqChat (sessionId st) (or_undef messageText (message st)) [].
Proof.
  destruct st as [url sid subj busy hist msg sugg vis].
  run.
  destruct (negb (truthy (trim (or_undef messageText msg)))
            || negb (truthy sid)); cbn.
  - intros [].
  - destruct o as [[data | detail] | m]; cbn;
      intros H; repeat (destruct H as [H | H]; try discriminate H);
      try contradiction; injection H as <-; reflexivity.
Qed.

Lemma C9_chat_screenshot_empty_witness :
  In (Fetch (ReqChat (lit "s1") (lit "why?") []))
     (effects_of (complete (sendMessage None)
                    (Resolved (Success (Data.mkChat (lit "Because."))))
                    drafting)) /\
  ReqChat (lit "s1") (lit "why?") []
  = ReqChat (sessionId drafting) (or_undef None (message drafting)) [].
Proof.
  assert (H : In (Fetch (ReqChat (lit "s1") (lit "why?") []))
                (effects_of (complete (sendMessage None)
                    (Resolved (Success (Data.mkChat (lit "Because."))))
                    drafting)))
    by (left; reflexivity).
  split; [exact H |].
  exact (C9_chat_screenshot_empty drafting None
           (Resolved (Success (Data.mkChat (lit "Because."))))
           (ReqChat (lit "s1") (lit "why?") []) H).
Defined.

(** ** Guards *)

(** C10: a handler whose guard fails returns before its first setter and
    before its request: [analyzeContent] on an empty URL, [sendMessage] on a
    text that is empty or made of white space only, or without a session,
    and [refreshSuggestions] without a session, each leave the state as it
    was and produce no effect, whatever the gateway would have answered.
    The text of [sendMessage] is the one it would send,
    [messageText || message]. *)
Theorem C10_guarded_calls_do_nothing (st : State) :
  (forall o,
     youtubeUrl st = [] ->
     analyzeContent st = (None, st, [])
     /\ complete analyzeContent o st = (tt, st, []))
  /\ (forall messageText o,
        forallb is_ws (or_undef messageText (message st)) = true
        \/ sessionId st = [] ->
        sendMessage messageText st = (None, st, [])
        /\ complete (sendMessage messageText) o st = (tt, st, []))
  /\ (forall o,
        sessionId st = [] ->
        refreshSuggestions st = (None, st, [])
        /\ complete refreshSuggestions o st = (tt, st, [])).
Proof.
  destruct st as [url sid subj busy hist msg sugg vis].
  cbn [youtubeUrl sessionId message].
  split; [| split].
  - intros o ->. split; reflexivity.
  - intros messageText o H.
    assert (Hguard : negb (truthy (trim (or_undef messageText msg)))
                     || negb (truthy sid) = true).
    { destruct H as [H | ->].
      - apply trim_nil_iff in H. rewrite H. reflexivity.
      - apply orb_true_r. }
    run. rewrite Hguard. split; reflexivity.
  - intros o ->. split; reflexivity.
Qed.

Lemma C10_guarded_calls_do_nothing_witness :
  (youtubeUrl initial = [] /\
   complete analyzeContent (Resolved (Success loops_reply)) initial
   = (tt, initial, []))
  /\ (forallb is_ws (or_undef (Some [32%N; 9%N; 160%N])
                       (message in_session)) = true /\
      complete (sendMessage (Some [32%N; 9%N; 160%N]))
        (Resolved (Success (Data.mkChat (lit "Because.")))) in_session
      = (tt, in_session, []))
  /\ (sessionId initial = [] /\
      complete refreshSuggestions
        (Resolved (Success (Data.mkSuggest [lit "What is a loop?"])))
        initial
      = (tt, initial, [])).
Proof.
  pose proof (C10_guarded_calls_do_nothing initial) as (Ha & _ & Hr).
  pose proof (C10_guarded_calls_do_nothing in_session) as (_ & Hs & _).
  split; [| split].
  - split; [reflexivity |].
    exact (proj2 (Ha (Resolved (Success loops_reply)) eq_refl)).
  - split; [reflexivity |].
    exact (proj2 (Hs (Some [32%N; 9%N; 160%N])
                     (Resolved (Success (Data.mkChat (lit "Because."))))
                     (or_introl eq_refl))).
  - split; [reflexivity |].
    exact (proj2 (Hr (Resolved (Success
                        (Data.mkSuggest [lit "What is a loop?"])))
                     eq_refl)).
Defined.

(** ** The busy flag *)

(** C6: an operation invoked with [loading] false leaves [loading] false
    when it completes, whatever the outcome of its request. *)
Theorem C6_busy_cleared (op : Op) (st : State) :
  loading st = false ->
  loading (step op st) = false.
Proof.
  destruct st as [url sid subj busy hist msg sugg vis].
  cbn [loading]. intros ->.
  destruct op as [u o | mt o | o | answer |]; run.
  - destruct u as [| c u]; cbn; [reflexivity |].
    destruct o as [[data | detail] | m]; reflexivity.
  - destruct (negb (truthy (trim (or_undef mt msg))) || negb (truthy sid));
      cbn; [reflexivity |].
    destruct o as [[data | detail] | m]; reflexivity.
  - destruct sid as [| c sid]; cbn; [reflexivity |].
    destruct o as [[data | detail] | m]; reflexivity.
  - destruct answer; reflexivity.
  - reflexivity.
Qed.

Lemma C6_busy_cleared_witness :
  loading in_session = false /\
  loading (step (SendMessage (Some (lit "why?")) (Threw (lit "Failed to fetch")))
             in_session) = false.
Proof.
  split; [reflexivity |].
  apply (C6_busy_cleared
           (SendMessage (Some (lit "why?")) (Threw (lit "Failed to fetch")))
           in_session).
  reflexivity.
Defined.

(** A handler that issued its request ends with [loading] false even when
    it was entered with [loading] true: the last statement of each is
    [setLoading(false)], outside the [try]. *)
Lemma issued_request_clears_loading (op : Op) (st : State) (r : Request) :
  In (Fetch r) (effects_of (perform op st)) ->
  loading (step op st) = false.
Proof.
  destruct st as [url sid subj busy hist msg sugg vis].
  destruct op as [u o | mt o | o | answer |]; run.
  - destruct u as [| c u]; cbn; [intros [] |].
    destruct o as [[data | detail] | m]; reflexivity.
  - destruct (negb (truthy (trim (or_undef mt msg))) || negb (truthy sid));
      cbn; [intros [] |].
    destruct o as [[data | detail] | m]; reflexivity.
  - destruct sid as [| c sid]; cbn; [intros [] |].
    destruct o as [[data | detail] | m]; reflexivity.
  - destruct answer; cbn; intros H;
      repeat (destruct H as [H | H]; try discriminate H); contradiction.
  - intros [].
Qed.

(** ** Resetting the session *)

(** C4, as stated, fails: a confirmed [clearChat] empties the URL input and
    leaves the text typed in the message box, here ["why?"], in place. *)
Lemma C4_counterexample :
  message drafting = lit "why?" /\
  message (state_of (clearChat true drafting)) <> [].
Proof. split; [reflexivity | discriminate]. Qed.

(** C4 (amended): a confirmed [clearChat] sets [sessionId] to [''],
    [subject] to [null], the history and the suggestions to [[]],
    [showSuggestions] to false and the URL input to [''], and leaves the
    message box and [loading] as they were; a declined one leaves every
    cell of the state unchanged.  In both cases the only effect is the
    confirmation dialog. *)
Theorem C4_reset (st : State) :
  clearChat true st
  = (tt,
     {| youtubeUrl := []; sessionId := []; subject := None;
        loading := loading st; chatHistory := []; message := message st;
        suggestions := []; showSuggestions := false |},
     [Confirm (lit "Start a new learning session?")])
  /\ clearChat false st
     = (tt, st, [Confirm (lit "Start a new learning session?")]).
Proof. destruct st; split; reflexivity. Qed.

(** ** Refreshing the suggestions *)
(** C5, as stated, fails: when the body of the reply is not a success, the
    handler has no [else] branch and writes nothing to the console. *)
Lemma C5_counterexample :
  failed (Resolved (Rejected (Some (lit "rate limited")))
            : Outcome Data.suggest) = true /\
  existsb is_console_error
    (effects_of (complete refreshSuggestions
                   (Resolved (Rejected (Some (lit "rate limited"))))
                   in_session)) = false.
Proof. split; reflexivity. Qed.

(** C5 (amended): when [refreshSuggestions] runs with a session active and
    its request fails, the state afterwards is the state before with
    [loading] false, so [suggestions], the history and [sessionId] are
    unchanged; no [alert] is shown; a thrown error is written with
    [console.error], and a body that is not a success is dropped without
    any log. *)
Theorem C5_failed_refresh (st : State) (o : Outcome Data.suggest) :
  truthy (sessionId st) = true ->
  failed o = true ->
  let r := complete refreshSuggestions o st in
  suggestions (state_of r) = suggestions st
  /\ chatHistory (state_of r) = chatHistory st
  /\ sessionId (state_of r) = sessionId st
  /\ state_of r = state_of (setLoading false st)
  /\ existsb is_alert (effects_of r) = false
  /\ effects_of r
     = Fetch (ReqSuggest (sessionId st))
       :: match o with
          | Threw m => [ConsoleError (lit "Error refreshing suggestions:") m]
          | Resolved _ => []
          end.
Proof.
  destruct st as [url sid subj busy hist msg sugg vis].
  cbn [sessionId]. intros Hsid Hfail.
  destruct sid as [| c sid]; [discriminate |].
  destruct o as [[data | detail] | m]; [discriminate | |];
    repeat split.
Qed.

Lemma C5_failed_refresh_witness :
  truthy (sessionId in_session) = true /\
  failed (Threw (lit "Failed to fetch") : Outcome Data.suggest) = true /\
  suggestions
    (state_of (complete refreshSuggestions (Threw (lit "Failed to fetch"))
                 in_session))
  = suggestions in_session.
Proof.
  split; [reflexivity | split; [reflexivity |]].
  apply (C5_failed_refresh in_session (Threw (lit "Failed to fetch"))
           eq_refl eq_refl).
Defined.

(** ** The hotkey relay *)

(** C8: a press of the hotkey sends exactly one message to the renderer, on
    the [show-notification] channel and carrying the whole parsed body, when
    the capture and the request both deliver and the body's
    [issue_detected] is truthy; in every other case (the capture rejects,
    the request or its parsing rejects, or [issue_detected] is falsy) it
    sends none. *)
Theorem C8_notification_iff_issue
    (Image Body : Type) (base64 : Image -> str)
    (issue_detected : Body -> bool)
    (capture : option Image) (reply : option Body) :
  Hotkey.notifications
    (Hotkey.on_hotkey base64 issue_detected capture reply)
  = match capture, reply with
    | Some _, Some data =>
        if issue_detected data
        then [(lit "show-notification", data)]
        else []
    | _, _ => []
    end.
Proof.
  destruct capture as [img |]; [| reflexivity].
  destruct reply as [data |]; [| reflexivity].
  cbn. destruct (issue_detected data); reflexivity.
Qed.

(** The two capture scenarios of the specification, the body being its
    [issue_detected] flag paired with the rest of the payload. *)
Example capture_without_issue :
  Hotkey.notifications
    (Hotkey.on_hotkey (fun img : str => img) fst
       (Some (lit "iVBORw0KGgo=")) (Some (false, lit "{}")))
  = [].
Proof. reflexivity. Qed.

Example capture_with_issue :
  Hotkey.notifications
    (Hotkey.on_hotkey (fun img : str => img) fst
       (Some (lit "iVBORw0KGgo=")) (Some (true, lit "{...}")))
  = [(lit "show-notification", (true, lit "{...}"))].
Proof. reflexivity. Qed.


(** ** Counting turns *)

Lemma count_snoc (f : Turn -> bool) (h : list Turn) (t : Turn) :
  List.length (filter f (h ++ [t]))
  = List.length (filter f h) + (if f t then 1 else 0).
Proof.
  rewrite filter_app, length_app. cbn [filter].
  destruct (f t); reflexivity.
Qed.

(** X3: a message that passes the guard of [sendMessage] raises the
    "questions asked" counter by exactly one whether the request succeeds
    or fails, and the number of assistant turns by one on success and by
    none on failure. *)
Theorem X3_every_sent_question_counts
    (st : State) (messageText : option str) (o : Outcome Data.chat) :
  truthy (trim (or_undef messageText (message st))) = true ->
  truthy (sessionId st) = true ->
  questionsAsked (step (SendMessage messageText o) st)
  = S (questionsAsked st)
  /\ answersGiven (step (SendMessage messageText o) st)
     = answersGiven st + (if failed o then 0 else 1).
Proof.
  intros Htext Hsid.
  pose proof (sendMessage_issues st messageText Htext Hsid) as Hguard.
  destruct st as [url sid subj busy hist msg sugg vis].
  unfold questionsAsked, answersGiven. run. rewrite Hguard.
  destruct o as [[data | detail] | m];
    cbn [fst snd chatHistory failed]; rewrite ?count_snoc;
    cbn [is_user is_assistant role]; split; lia.
Qed.

Lemma X3_every_sent_question_counts_witness :
  truthy (trim (or_undef (Some (lit "why?")) (message in_session))) = true /\
  truthy (sessionId in_session) = true /\
  questionsAsked
    (step (SendMessage (Some (lit "why?")) (Threw (lit "Failed to fetch")))
          in_session) = 1.
Proof.
  split; [reflexivity | split; [reflexivity |]].
  apply (X3_every_sent_question_counts in_session (Some (lit "why?"))
           (Threw (lit "Failed to fetch")) eq_refl eq_refl).
Defined.

(** ** Operations inside a session *)

(** X5: an operation that neither starts a session nor confirms a reset
    leaves [sessionId] and [subject] as they were and only appends to the
    history, at most two turns. *)
Theorem X5_history_only_grows (op : Op) (st : State) :
  within_session op = true ->
  sessionId (step op st) = sessionId st
  /\ subject (step op st) = subject st
  /\ exists added,
       chatHistory (step op st) = chatHistory st ++ added
       /\ List.length added <= 2.
Proof.
  destruct st as [url sid subj busy hist msg sugg vis].
  destruct op as [u o | mt o | o | answer |]; cbn [within_session];
    intros Hin; try discriminate; run.
  - destruct (negb (truthy (trim (or_undef mt msg))) || negb (truthy sid));
      cbn [fst snd sessionId subject chatHistory].
    + repeat split. exists []. rewrite app_nil_r. split; [reflexivity | cbn; lia].
    + destruct o as [[data | detail] | m];
        cbn [fst snd sessionId subject chatHistory]; repeat split.
      * eexists. rewrite <- app_assoc. split; [reflexivity | cbn; lia].
      * eexists. split; [reflexivity | cbn; lia].
      * eexists. split; [reflexivity | cbn; lia].
  - destruct sid as [| c sid]; cbn [truthy negb fst snd sessionId subject chatHistory].
    + repeat split. exists []. rewrite app_nil_r. split; [reflexivity | cbn; lia].
    + destruct o as [[data | detail] | m];
        cbn [fst snd sessionId subject chatHistory]; repeat split;
        exists []; rewrite app_nil_r; (split; [reflexivity | cbn; lia]).
  - destruct answer; [discriminate |].
    cbn [fst snd sessionId subject chatHistory]. repeat split.
    exists []. rewrite app_nil_r. split; [reflexivity | cbn; lia].
  - repeat split. exists []. rewrite app_nil_r. split; [reflexivity | cbn; lia].
Qed.

Lemma X5_history_only_grows_witness :
  within_session
    (SendMessage (Some (lit "why?"))
       (Resolved (Success (Data.mkChat (lit "Because."))))) = true /\
  sessionId
    (step (SendMessage (Some (lit "why?"))
             (Resolved (Success (Data.mkChat (lit "Because.")))))
          in_session) = sessionId in_session.
Proof.
  split; [reflexivity |].
  apply (X5_history_only_grows
           (SendMessage (Some (lit "why?"))
              (Resolved (Success (Data.mkChat (lit "Because.")))))
           in_session eq_refl).
Defined.

(** X6: no operation retries: whatever the state and the outcome, an
    operation issues at most one request and shows at most one alert. *)
Theorem X6_at_most_one_request (op : Op) (st : State) :
  List.length (filter is_fetch (effects_of (perform op st))) <= 1
  /\ List.length (filter is_alert (effects_of (perform op st))) <= 1.
Proof.
  destruct st as [url sid subj busy hist msg sugg vis].
  destruct op as [u o | mt o | o | answer |]; run.
  - destruct u as [| c u]; cbn -[welcome]; [lia |].
    destruct o as [[data | detail] | m]; cbn -[welcome]; lia.
  - destruct (negb (truthy (trim (or_undef mt msg))) || negb (truthy sid));
      cbn; [lia |].
    destruct o as [[data | detail] | m]; cbn; lia.
  - destruct sid as [| c sid]; cbn; [lia |].
    destruct o as [[data | detail] | m]; cbn; lia.
  - destruct answer; cbn; lia.
  - cbn; lia.
Qed.

(** X7: a message that passes the guard and is answered with a success
    body ends with the user turn and then the assistant turn carrying
    [data.response] appended, the message box emptied, the suggestions
    hidden, [loading] false, and no alert: the request is the only
    effect. *)
Theorem X7_answered_message
    (st : State) (messageText : option str) (data : Data.chat) :
  let text := or_undef messageText (message st) in
  truthy (trim text) = true ->
  truthy (sessionId st) = true ->
  complete (sendMessage messageText) (Resolved (Success data)) st
  = (tt,
     {| youtubeUrl := youtubeUrl st; sessionId := sessionId st;
        subject := subject st; loading := false;
        chatHistory :=
          chatHistory st
          ++ [ {| role := user; content := text |};
               {| role := assistant; content := Data.response data |} ];
        message := []; suggestions := suggestions st;
        showSuggestions := false |},
     [Fetch (ReqChat (sessionId st) text [])]).
Proof.
  intros text Htext Hsid. subst text.
  pose proof (sendMessage_issues st messageText Htext Hsid) as Hguard.
  destruct st as [url sid subj busy hist msg sugg vis].
  run. rewrite Hguard.
  cbn [fst snd app youtubeUrl sessionId subject loading chatHistory message
       suggestions showSuggestions].
  rewrite <- app_assoc. reflexivity.
Qed.

Lemma X7_answered_message_witness :
  truthy (trim (or_undef None (message drafting))) = true /\
  truthy (sessionId drafting) = true /\
  chatHistory
    (state_of (complete (sendMessage None)
                 (Resolved (Success (Data.mkChat (lit "Because."))))
                 drafting))
  = chatHistory drafting
    ++ [ {| role := user; content := lit "why?" |};
         {| role := assistant; content := lit "Because." |} ].
Proof.
  split; [reflexivity | split; [reflexivity |]].
  rewrite (X7_answered_message drafting None (Data.mkChat (lit "Because."))
             eq_refl eq_refl).
  reflexivity.
Defined.

(** X8: a refresh answered with a success body replaces the suggestions by
    the returned list as a whole and shows them; every other cell is as
    before, with [loading] false; the request is the only effect. *)
Theorem X8_refreshed_suggestions (st : State) (data : Data.suggest) :
  truthy (sessionId st) = true ->
  complete refreshSuggestions (Resolved (Success data)) st
  = (tt,
     {| youtubeUrl := youtubeUrl st; sessionId := sessionId st;
        subject := subject st; loading := false;
        chatHistory := chatHistory st; message := message st;
        suggestions := Data.suggestions data; showSuggestions := true |},
     [Fetch (ReqSuggest (sessionId st))]).
Proof.
  destruct st as [url sid subj busy hist msg sugg vis].
  cbn [sessionId]. intros Hsid.
  destruct sid as [| c sid]; [discriminate | reflexivity].
Qed.

Lemma X8_refreshed_suggestions_witness :
  truthy (sessionId in_session) = true /\
  suggestions
    (state_of (complete refreshSuggestions
                 (Resolved (Success (Data.mkSuggest [])))
                 in_session)) = [].
Proof.
  split; [reflexivity |].
  rewrite (X8_refreshed_suggestions in_session (Data.mkSuggest []) eq_refl).
  reflexivity.
Defined.

(** ** Buttons and guards *)

(** X9: with [loading] false, the [disabled] expression of a button and
    the guard of its handler agree: a disabled start or send button is one
    whose click would return without doing anything, and an enabled one
    issues the request for the typed URL, or, in a rendered chat, for the
    typed message. *)
Theorem X9_enabled_buttons_act (st : State) :
  loading st = false ->
  (if analyzeDisabled st
   then analyzeContent st = (None, st, [])
   else exists k,
       value_of (analyzeContent st) = Some (ReqAnalyze (youtubeUrl st), k))
  /\ (showsChat st = true ->
      if sendDisabled st
      then sendMessage None st = (None, st, [])
      else exists k,
          value_of (sendMessage None st)
          = Some (ReqChat (sessionId st) (message st) [], k)).
Proof.
  destruct st as [url sid subj busy hist msg sugg vis].
  unfold analyzeDisabled, sendDisabled, showsChat.
  cbn [loading youtubeUrl sessionId message]. intros ->.
  cbn [orb]. split.
  - destruct url as [| c url]; cbn [truthy negb].
    + reflexivity.
    + eexists. reflexivity.
  - intros Hsid. run. cbn [or_undef]. rewrite Hsid. cbn [negb].
    rewrite orb_false_r.
    destruct (negb (truthy (trim msg))).
    + reflexivity.
    + eexists. reflexivity.
Qed.

Lemma X9_enabled_buttons_act_witness :
  loading drafting = false /\
  showsChat drafting = true /\
  sendDisabled drafting = false /\
  exists k,
    value_of (sendMessage None drafting)
    = Some (ReqChat (lit "s1") (lit "why?") [], k).
Proof.
  split; [reflexivity | split; [reflexivity | split; [reflexivity |]]].
  exact (proj2 (X9_enabled_buttons_act drafting eq_refl) eq_refl).
Defined.

(** In the state a handler suspends in at its request, [loading] is true,
    so the start, send and refresh buttons and the message input are
    disabled at that moment. *)
Lemma suspended_controls_disabled
    (st : State) (messageText : option str) :
  (value_of (analyzeContent st) <> None ->
   controlsDisabled (state_of (analyzeContent st)) = true)
  /\ (value_of (sendMessage messageText st) <> None ->
      controlsDisabled (state_of (sendMessage messageText st)) = true)
  /\ (value_of (refreshSuggestions st) <> None ->
      controlsDisabled (state_of (refreshSuggestions st)) = true).
Proof.
  destruct st as [url sid subj busy hist msg sugg vis].
  unfold controlsDisabled, analyzeDisabled, sendDisabled, refreshDisabled,
    inputDisabled.
  split; [| split]; run.
  - destruct url as [| c url]; cbn; [intros H; now elim H | reflexivity].
  - destruct (negb (truthy (trim (or_undef messageText msg)))
              || negb (truthy sid)); cbn;
      [intros H; now elim H | reflexivity].
  - destruct sid as [| c sid]; cbn; [intros H; now elim H | reflexivity].
Qed.

Lemma str_eqb_eq (a b : str) : str_eqb a b = true <-> a = b.
Proof.
  revert b. induction a as [| x a IH]; intros [| y b]; cbn;
    try (split; [discriminate | discriminate || congruence]).
  - split; reflexivity.
  - rewrite andb_true_iff, N.eqb_eq, IH. split.
    + intros [-> ->]. reflexivity.
    + intros E. injection E as -> ->. split; reflexivity.
Qed.

(** X11: the URL input is not disabled while [loading] is true and
    [analyzeContent] does not look at [loading]: with the first analysis
    still outstanding, the form is still rendered and Enter in the URL
    input issues the same request a second time. *)
Theorem X11_enter_reissues_analysis (st : State) :
  truthy (youtubeUrl st) = true ->
  sessionId st = [] ->
  let waiting := state_of (analyzeContent st) in
  loading waiting = true
  /\ showsUrlForm waiting = true
  /\ exists k,
       value_of (urlKeyPress (lit "Enter") waiting)
       = Some (ReqAnalyze (youtubeUrl st), k).
Proof.
  destruct st as [url sid subj busy hist msg sugg vis].
  cbn [youtubeUrl sessionId]. intros Hurl ->.
  destruct url as [| c url]; [discriminate |].
  unfold urlKeyPress, showsUrlForm.
  replace (str_eqb (lit "Enter") (lit "Enter")) with true by reflexivity.
  run. cbn [truthy negb fst snd youtubeUrl sessionId loading].
  split; [reflexivity | split; [reflexivity |]].
  eexists. reflexivity.
Qed.

Lemma X11_enter_reissues_analysis_witness :
  truthy (youtubeUrl url_typed) = true /\
  sessionId url_typed = [] /\
  loading (state_of (analyzeContent url_typed)) = true.
Proof.
  split; [reflexivity | split; [reflexivity |]].
  apply (X11_enter_reissues_analysis url_typed eq_refl eq_refl).
Defined.

(** ** Suggestions *)

Lemma trim_truthy (s : str) : truthy (trim s) = true -> truthy s = true.
Proof. destruct s; [discriminate | reflexivity]. Qed.

(** X12: a click on a suggestion always leaves the suggestions hidden,
    even when the guard of [sendMessage] turns the click down; and when the
    suggestion is not blank and a session is active, the request carries
    the suggestion, not what is typed in the message box, the user turn
    holds the suggestion, and the typed text is discarded. *)
Theorem X12_suggestion_click
    (st : State) (suggestion : str) (o : Outcome Data.chat) :
  showSuggestions (state_of (complete (clickSuggestion suggestion) o st))
  = false
  /\ (truthy (trim suggestion) = true ->
      truthy (sessionId st) = true ->
      (exists k,
         value_of (clickSuggestion suggestion st)
         = Some (ReqChat (sessionId st) suggestion [], k))
      /\ chatHistory (state_of (clickSuggestion suggestion st))
         = chatHistory st ++ [ {| role := user; content := suggestion |} ]
      /\ message (state_of (complete (clickSuggestion suggestion) o st))
         = []).
Proof.
  destruct st as [url sid subj busy hist msg sugg vis].
  unfold clickSuggestion. cbn [sessionId chatHistory]. split.
  - run.
    destruct (negb (truthy (trim (or_undef (Some suggestion) msg)))
              || negb (truthy sid));
      cbn [fst snd showSuggestions]; [reflexivity |].
    destruct o as [[data | detail] | m]; reflexivity.
  - intros Htext Hsid.
    assert (Hor : or_undef (Some suggestion) msg = suggestion).
    { cbn [or_undef]. unfold or_str. rewrite (trim_truthy _ Htext).
      reflexivity. }
    run. rewrite Hor, Htext, Hsid. cbn [negb orb fst snd chatHistory message].
    split; [eexists; reflexivity | split; [reflexivity |]].
    destruct o as [[data | detail] | m]; reflexivity.
Qed.

Lemma X12_suggestion_click_witness :
  truthy (trim (lit "What is a loop?")) = true /\
  truthy (sessionId drafting) = true /\
  message
    (state_of (complete (clickSuggestion (lit "What is a loop?"))
                 (Threw (lit "Failed to fetch")) drafting)) = [].
Proof.
  split; [reflexivity | split; [reflexivity |]].
  apply (X12_suggestion_click drafting (lit "What is a loop?")
           (Threw (lit "Failed to fetch"))).
  - reflexivity.
  - reflexivity.
Defined.

(** ** Failures *)

(** X13: when the analysis is answered with a body that is not a success,
    the alert reads ["Error: "] followed by [data.detail], or by
    ["Unknown error"] when [detail] is missing or empty. *)
Theorem X13_rejected_analysis_alert (st : State) (detail : option str) :
  truthy (youtubeUrl st) = true ->
  effects_of (complete analyzeContent (Resolved (Rejected detail)) st)
  = [ Fetch (ReqAnalyze (youtubeUrl st));
      Alert (lit "Error: "
             ++ match detail with
                | Some (c :: d) => c :: d
                | _ => lit "Unknown error"
                end) ].
Proof.
  destruct st as [url sid subj busy hist msg sugg vis].
  cbn [youtubeUrl]. intros Hurl.
  destruct url as [| c url]; [discriminate |].
  destruct detail as [[| c' d] |]; reflexivity.
Qed.

Lemma X13_rejected_analysis_alert_witness :
  truthy (youtubeUrl url_typed) = true /\
  effects_of (complete analyzeContent (Resolved (Rejected (Some [])))
                url_typed)
  = [ Fetch (ReqAnalyze (lit "https://x/watch?v=abc"));
      Alert (lit "Error: Unknown error") ].
Proof.
  split; [reflexivity |].
  rewrite (X13_rejected_analysis_alert url_typed (Some []) eq_refl).
  reflexivity.
Defined.

Lemma resume_after_nothing {D : Type} (h : Async D) (o : Outcome D)
    (st : State) :
  resume_after h (ret tt) o st = complete h o st.
Proof.
  unfold resume_after, complete, bind, ret, emit.
  destruct (h st) as [[[[req k] |] st1] e1]; [| reflexivity].
  destruct (k o st1) as [[u st2] e2]. reflexivity.
Qed.

(** X14: the New Session button stays available while a chat request is
    outstanding, and the reply is applied to whatever the state then is:
    when the session is reset before a success reply arrives, the page ends
    without session and without subject but with the assistant turn of
    the reply as its whole history. *)
Theorem X14_reply_after_reset
    (st : State) (messageText : option str) (data : Data.chat) :
  truthy (trim (or_undef messageText (message st))) = true ->
  truthy (sessionId st) = true ->
  let r := resume_after (sendMessage messageText) (clearChat true)
             (Resolved (Success data)) st in
  showsNewSession (state_of (sendMessage messageText st)) = true
  /\ sessionId (state_of r) = []
  /\ subject (state_of r) = None
  /\ chatHistory (state_of r)
     = [ {| role := assistant; content := Data.response data |} ]
  /\ ~ session_consistent (state_of r).
Proof.
  intros Htext Hsid.
  pose proof (sendMessage_issues st messageText Htext Hsid) as Hguard.
  destruct st as [url sid subj busy hist msg sugg vis].
  cbn [sessionId] in Hsid.
  unfold resume_after, showsNewSession, session_consistent, no_id,
    no_subject, no_history.
  run. rewrite Hguard.
  cbn [fst snd app sessionId subject chatHistory truthy negb].
  repeat split; try assumption.
  intros [_ H]. discriminate H.
Qed.

Lemma X14_reply_after_reset_witness :
  truthy (trim (or_undef None (message drafting))) = true /\
  truthy (sessionId drafting) = true /\
  chatHistory
    (state_of (resume_after (sendMessage None) (clearChat true)
                 (Resolved (Success (Data.mkChat (lit "Because."))))
                 drafting))
  = [ {| role := assistant; content := lit "Because." |} ].
Proof.
  split; [reflexivity | split; [reflexivity |]].
  apply (X14_reply_after_reset drafting None (Data.mkChat (lit "Because."))
           eq_refl eq_refl).
Defined.

(** ** The subject bar *)

Ltac known_subject E :=
  apply str_eqb_eq in E; subst;
  split;
  [ reflexivity
  | split;
    [ intros H; vm_compute in H; discriminate H
    | intros H; exfalso; apply H; cbn [In];
      repeat (try (left; reflexivity); right) ] ].

(** X15: the subject bar shows exactly one icon for every subject: the
    open book exactly when the subject is none of [coding], [history],
    [science], [language] and [math]. *)
Theorem X15_one_icon_per_subject (s : Subject.t) :
  List.length (subjectIcons s) = 1
  /\ (subjectIcons s = [[55357; 56534]%N]
      <-> ~ In (Subject.subject s)
               [lit "coding"; lit "history"; lit "science"; lit "language";
                lit "math"]).
Proof.
  destruct s as [subj topic level concepts].
  unfold subjectIcons. cbn [Subject.subject existsb].
  destruct (str_eqb subj (lit "coding")) eqn:E1; [known_subject E1 |].
  destruct (str_eqb subj (lit "history")) eqn:E2; [known_subject E2 |].
  destruct (str_eqb subj (lit "science")) eqn:E3; [known_subject E3 |].
  destruct (str_eqb subj (lit "language")) eqn:E4; [known_subject E4 |].
  destruct (str_eqb subj (lit "math")) eqn:E5; [known_subject E5 |].
  cbn [and_text app orb negb].
  split; [reflexivity |].
  split; [intros _ Hin | reflexivity].
  cbn [In] in Hin.
  destruct Hin as [H | [H | [H | [H | [H | []]]]]]; subst subj.
  - vm_compute in E1. discriminate E1.
  - vm_compute in E2. discriminate E2.
  - vm_compute in E3. discriminate E3.
  - vm_compute in E4. discriminate E4.
  - vm_compute in E5. discriminate E5.
Qed.

(** ** The suggestions sidebar *)



(** ** What a reply does *)

Lemma analyze_reply (st0 : State) (req : Request)
    (k : Outcome Data.analyze -> M unit) :
  value_of (analyzeContent st0) = Some (req, k) ->
  forall (o : Outcome Data.analyze) (st : State),
    state_of (k o st)
    = match o with
      | Resolved (Success data) =>
          {| youtubeUrl := youtubeUrl st;
             sessionId := Data.session_id data;
             subject := Some (Data.subject data);
             loading := false;
             chatHistory :=
               [ {| role := assistant;
                    content := welcome (Data.subject data) |} ];
             message := message st;
             suggestions :=
               match Data.suggested_questions data with
               | Some qs => qs
               | None => []
               end;
             showSuggestions := true |}
      | _ =>
          {| youtubeUrl := youtubeUrl st; sessionId := sessionId st;
             subject := subject st; loading := false;
             chatHistory := chatHistory st; message := message st;
             suggestions := suggestions st;
             showSuggestions := showSuggestions st |}
      end.
Proof.
  destruct st0 as [url sid subj busy hist msg sugg vis].
  run. destruct url as [| c url]; cbn [truthy negb fst]; [discriminate |].
  intros H. injection H as _ <-.
  intros [[data | detail] | m] st; destruct st; reflexivity.
Qed.

Lemma chat_reply (messageText : option str) (st0 : State) (req : Request)
    (k : Outcome Data.chat -> M unit) :
  value_of (sendMessage messageText st0) = Some (req, k) ->
  forall (o : Outcome Data.chat) (st : State),
    state_of (k o st)
    = {| youtubeUrl := youtubeUrl st; sessionId := sessionId st;
         subject := subject st; loading := false;
         chatHistory :=
           match o with
           | Resolved (Success data) =>
               chatHistory st
               ++ [ {| role := assistant; content := Data.response data |} ]
           | _ => chatHistory st
           end;
         message := message st; suggestions := suggestions st;
         showSuggestions := showSuggestions st |}.
Proof.
  destruct st0 as [url sid subj busy hist msg sugg vis].
  run.
  destruct (negb (truthy (trim (or_undef messageText msg)))
            || negb (truthy sid)); cbn [fst]; [discriminate |].
  intros H. injection H as _ <-.
  intros [[data | detail] | m] st; destruct st; reflexivity.
Qed.

Lemma suggest_reply (st0 : State) (req : Request)
    (k : Outcome Data.suggest -> M unit) :
  value_of (refreshSuggestions st0) = Some (req, k) ->
  forall (o : Outcome Data.suggest) (st : State),
    state_of (k o st)
    = match o with
      | Resolved (Success data) =>
          {| youtubeUrl := youtubeUrl st; sessionId := sessionId st;
             subject := subject st; loading := false;
             chatHistory := chatHistory st; message := message st;
             suggestions := Data.suggestions data;
             showSuggestions := true |}
      | _ =>
          {| youtubeUrl := youtubeUrl st; sessionId := sessionId st;
             subject := subject st; loading := false;
             chatHistory := chatHistory st; message := message st;
             suggestions := suggestions st;
             showSuggestions := showSuggestions st |}
      end.
Proof.
  destruct st0 as [url sid subj busy hist msg sugg vis].
  run. destruct sid as [| c sid]; cbn [truthy negb fst]; [discriminate |].
  intros H. injection H as _ <-.
  intros [[data | detail] | m] st; destruct st; reflexivity.
Qed.

(** ** Runs with requests in flight *)

Lemma start_value (url : str) (st : State) :
  value_of (bind (setYoutubeUrl url) (fun _ => analyzeContent) st)
  = value_of (analyzeContent (state_of (setYoutubeUrl url st))).
Proof. destruct st. run. destruct url; reflexivity. Qed.

Lemma click_value (s : str) (st : State) :
  value_of (clickSuggestion s st) = value_of (sendMessage (Some s) st).
Proof.
  destruct st as [url sid subj busy hist msg sugg vis].
  unfold clickSuggestion. run.
  destruct (negb (truthy (trim (or_undef (Some s) msg)))
            || negb (truthy sid)); reflexivity.
Qed.

Lemma act_keeps_handlers (a : Action) (p : Page) :
  Forall from_handler (outstanding p) ->
  Forall from_handler (outstanding (act a p)).
Proof.
  intros H. destruct a; unfold act, suspend, sync; cbn [outstanding];
    try exact H; apply Forall_app; (split; [exact H |]).
  - rewrite start_value.
    destruct (value_of (analyzeContent _)) as [[req k] |] eqn:E;
      constructor; [| constructor].
    cbn [from_handler]. eauto.
  - destruct (value_of (sendMessage _ _)) as [[req k] |] eqn:E;
      constructor; [| constructor].
    cbn [from_handler]. eauto.
  - rewrite click_value.
    destruct (value_of (sendMessage _ _)) as [[req k] |] eqn:E;
      constructor; [| constructor].
    cbn [from_handler]. eauto.
  - destruct (value_of (refreshSuggestions _)) as [[req k] |] eqn:E;
      constructor; [| constructor].
    cbn [from_handler]. eauto.
Qed.

Lemma remove_nth_incl {A : Type} (i : nat) (l : list A) (x : A) :
  In x (remove_nth i l) -> In x l.
Proof.
  revert i. induction l as [| y l IH]; intros i H; [destruct i; exact H |].
  destruct i as [| i]; cbn [remove_nth] in H.
  - right. exact H.
  - destruct H as [H | H]; [left; exact H | right; exact (IH _ H)].
Qed.

Lemma remove_nth_Forall {A : Type} (P : A -> Prop) (i : nat) (l : list A) :
  Forall P l -> Forall P (remove_nth i l).
Proof.
  rewrite !Forall_forall. intros H x Hx.
  apply H. exact (remove_nth_incl _ _ _ Hx).
Qed.

Lemma remove_nth_existsb {A : Type} (f : A -> bool) (i : nat) (l : list A) :
  existsb f (remove_nth i l) = true -> existsb f l = true.
Proof.
  rewrite !existsb_exists. intros (x & Hx & Hf).
  exists x. split; [exact (remove_nth_incl _ _ _ Hx) | exact Hf].
Qed.

Lemma deliver_keeps_handlers (i : nat) (r : Reply) (p : Page) :
  Forall from_handler (outstanding p) ->
  Forall from_handler (outstanding (deliver i r p)).
Proof.
  intros H. unfold deliver.
  destruct (nth_error (outstanding p) i) as [[k | k | k] |];
    destruct r; cbn [outstanding]; try exact H;
    apply remove_nth_Forall; exact H.
Qed.

Lemma nth_from_handler (p : Page) (i : nat) (pd : Pending) :
  Forall from_handler (outstanding p) ->
  nth_error (outstanding p) i = Some pd ->
  from_handler pd.
Proof.
  intros H E. rewrite Forall_forall in H.
  apply H. exact (nth_error_In _ _ E).
Qed.

Lemma nth_chat_in_flight (l : list Pending) (i : nat)
    (k : Outcome Data.chat -> M unit) :
  nth_error l i = Some (AwaitChat k) -> existsb is_chat l = true.
Proof.
  intros E. apply existsb_exists. exists (AwaitChat k).
  split; [exact (nth_error_In _ _ E) | reflexivity].
Qed.

Ltac cells_simpl :=
  cbn [fst snd youtubeUrl sessionId subject loading chatHistory message
       suggestions showSuggestions cells outstanding truthy negb app] in *.

Lemma welcomed_snoc (st st' : State) (t : Turn) :
  session_consistent st /\ welcomed st ->
  truthy (sessionId st) = true ->
  sessionId st' = sessionId st ->
  subject st' = subject st ->
  chatHistory st' = chatHistory st ++ [t] ->
  session_consistent st' /\ welcomed st'.
Proof.
  unfold session_consistent, welcomed, no_id, no_subject, no_history.
  intros [[H1 H2] Hw] Hsid -> -> ->.
  rewrite Hsid in H1. cbn [negb] in H1.
  destruct (subject st) as [s |]; [| discriminate].
  destruct (chatHistory st) as [| t0 h]; [contradiction |].
  rewrite Hsid. cbn. split; [split; reflexivity | exact Hw].
Qed.

Lemma same_session (st st' : State) :
  sessionId st' = sessionId st ->
  subject st' = subject st ->
  chatHistory st' = chatHistory st ->
  session_consistent st /\ welcomed st ->
  session_consistent st' /\ welcomed st'.
Proof.
  unfold session_consistent, welcomed, no_id, no_subject, no_history.
  intros -> -> ->. trivial.
Qed.

Lemma send_prefix (messageText : option str) (st : State) :
  chat_prefix_facts (sendMessage messageText) st.
Proof.
  destruct st as [url sid subj busy hist msg sugg vis].
  unfold chat_prefix_facts. run.
  destruct (negb (truthy (trim (or_undef messageText msg)))
            || negb (truthy sid)) eqn:G; cells_simpl.
  - repeat split. left. repeat split.
  - apply orb_false_elim in G. destruct G as [_ G].
    repeat split. right. repeat split.
    + discriminate.
    + destruct sid; [discriminate | reflexivity].
    + eexists. split; [| reflexivity]. reflexivity.
Qed.

Lemma click_prefix (s : str) (st : State) :
  chat_prefix_facts (clickSuggestion s) st.
Proof.
  destruct st as [url sid subj busy hist msg sugg vis].
  unfold chat_prefix_facts, clickSuggestion. run.
  destruct (negb (truthy (trim (or_undef (Some s) msg)))
            || negb (truthy sid)) eqn:G; cells_simpl.
  - repeat split. left. repeat split.
  - apply orb_false_elim in G. destruct G as [_ G].
    repeat split. right. repeat split.
    + discriminate.
    + destruct sid; [discriminate | reflexivity].
    + eexists. split; [| reflexivity]. reflexivity.
Qed.

Lemma chat_prefix_coherent (h : Async Data.chat) (st : State)
    (out : list Pending) :
  chat_prefix_facts h st ->
  session_consistent st /\ welcomed st ->
  (existsb is_chat out = true -> truthy (sessionId st) = true) ->
  (session_consistent (state_of (h st)) /\ welcomed (state_of (h st)))
  /\ (existsb is_chat
        (out ++ match value_of (h st) with
                | Some (_, k) => [AwaitChat k]
                | None => []
                end) = true ->
      truthy (sessionId (state_of (h st))) = true).
Proof.
  intros (Hid & Hsubj & _ & [(Hv & Hh & _) | (Hv & Hs & _ & t & _ & Hh)])
    Hcore Hchat.
  - rewrite Hv, app_nil_r, Hid.
    split; [| exact Hchat].
    exact (same_session st _ Hid Hsubj Hh Hcore).
  - rewrite Hid. split; [| intros _; exact Hs].
    exact (welcomed_snoc st _ t Hcore Hs Hid Hsubj Hh).
Qed.

Lemma act_coherent (a : Action) (p : Page) :
  coherent p ->
  start_offered p (Act a) = true ->
  reset_clear_of is_chat p (Act a) = true ->
  coherent (act a p).
Proof.
  intros (Hh & Hc & Hw & Hchat) Hoff Hreset.
  split; [exact (act_keeps_handlers a p Hh) |].
  destruct p as [st out].
  cbn [cells outstanding start_offered reset_clear_of] in *.
  destruct a as [url | mt | s | | answer | | text];
    unfold act, suspend, sync; cbn [cells outstanding].
  - (* start *)
    unfold showsUrlForm in Hoff.
    destruct st as [u sid subj busy hist msg sugg vis]. cells_simpl.
    destruct sid as [| c sid]; [| discriminate].
    assert (Hout : existsb is_chat out = false).
    { destruct (existsb is_chat out); [| reflexivity].
      specialize (Hchat eq_refl). discriminate. }
    run.
    destruct url as [| c url]; cells_simpl.
    + rewrite app_nil_r. repeat split; try apply Hc; try exact Hw.
      rewrite Hout. discriminate.
    + repeat split.
      rewrite existsb_app, Hout. cbn. discriminate.
  - (* send *)
    pose proof (chat_prefix_coherent _ st out (send_prefix mt st)
                  (conj Hc Hw) Hchat) as [[H1 H2] H3].
    repeat split; try apply H1; assumption.
  - (* suggestion click *)
    pose proof (chat_prefix_coherent _ st out (click_prefix s st)
                  (conj Hc Hw) Hchat) as [[H1 H2] H3].
    repeat split; try apply H1; assumption.
  - (* refresh *)
    destruct st as [u sid subj busy hist msg sugg vis]. run.
    destruct sid as [| c sid]; cells_simpl.
    + rewrite app_nil_r. repeat split; try apply Hc; assumption.
    + repeat split; try apply Hc; try exact Hw.
  - (* reset *)
    destruct st as [u sid subj busy hist msg sugg vis]. run.
    destruct answer; cells_simpl.
    + repeat split. intros E. rewrite E in Hreset. discriminate.
    + repeat split; try apply Hc; assumption.
  - (* toggle *)
    destruct st as [u sid subj busy hist msg sugg vis].
    repeat split; try apply Hc; assumption.
  - (* typing *)
    destruct st as [u sid subj busy hist msg sugg vis].
    repeat split; try apply Hc; assumption.
Qed.

Lemma deliver_coherent (i : nat) (r : Reply) (p : Page) :
  coherent p ->
  names_session (Deliver i r) = true ->
  coherent (deliver i r p).
Proof.
  intros (Hh & Hc & Hw & Hchat) Hname.
  split; [exact (deliver_keeps_handlers i r p Hh) |].
  unfold deliver.
  destruct (nth_error (outstanding p) i) as [pd |] eqn:E;
    [| repeat split; try apply Hc; assumption].
  pose proof (nth_from_handler p i pd Hh E) as Hpd.
  destruct pd as [k | k | k]; destruct r as [o | o | o];
    try (repeat split; try apply Hc; assumption);
    cbn [cells outstanding from_handler] in *.
  - (* analysis *)
    destruct Hpd as (st0 & req & Hk).
    rewrite (analyze_reply st0 req k Hk).
    destruct o as [[data | detail] | m]; cbn [names_session] in Hname.
    + unfold session_consistent, welcomed, no_id, no_subject, no_history.
      cells_simpl. rewrite Hname. repeat split.
    + split; [| split].
      * apply Hc.
      * exact Hw.
      * intros H. apply Hchat. exact (remove_nth_existsb _ _ _ H).
    + split; [| split].
      * apply Hc.
      * exact Hw.
      * intros H. apply Hchat. exact (remove_nth_existsb _ _ _ H).
  - (* chat *)
    destruct Hpd as (mt & st0 & req & Hk).
    rewrite (chat_reply mt st0 req k Hk).
    pose proof (Hchat (nth_chat_in_flight _ _ _ E)) as Hsid.
    destruct o as [[data | detail] | m].
    + destruct (welcomed_snoc (cells p)
                  {| youtubeUrl := youtubeUrl (cells p);
                     sessionId := sessionId (cells p);
                     subject := subject (cells p); loading := false;
                     chatHistory :=
                       chatHistory (cells p)
                       ++ [ {| role := assistant;
                               content := Data.response data |} ];
                     message := message (cells p);
                     suggestions := suggestions (cells p);
                     showSuggestions := showSuggestions (cells p) |}
                  _ (conj Hc Hw) Hsid eq_refl eq_refl eq_refl) as [H1 H2].
      split; [exact H1 | split; [exact H2 | intros _; exact Hsid]].
    + split; [apply Hc | split; [exact Hw | intros _; exact Hsid]].
    + split; [apply Hc | split; [exact Hw | intros _; exact Hsid]].
  - (* suggestions *)
    destruct Hpd as (st0 & req & Hk).
    rewrite (suggest_reply st0 req k Hk).
    destruct o as [[data | detail] | m];
      (split; [apply Hc | split; [exact Hw |]]);
      intros H; apply Hchat; exact (remove_nth_existsb _ _ _ H).
Qed.

Lemma happen_coherent (e : Event) (p : Page) :
  coherent p ->
  start_offered p e = true ->
  reset_clear_of is_chat p e = true ->
  names_session e = true ->
  coherent (happen e p).
Proof.
  destruct e as [a | i r]; intros Hp Hoff Hreset Hname.
  - exact (act_coherent a p Hp Hoff Hreset).
  - exact (deliver_coherent i r p Hp Hname).
Qed.

Lemma fresh_coherent : coherent fresh.
Proof.
  split; [constructor |].
  split; [exact initial_consistent |].
  split; [exact I | discriminate].
Qed.

Lemma pages_after_coherent (es : list Event) :
  forall p,
    coherent p ->
    along start_offered es p = true ->
    along (reset_clear_of is_chat) es p = true ->
    forallb names_session es = true ->
    Forall coherent (pages_after es p).
Proof.
  induction es as [| e es IH]; intros p Hp Hoff Hreset Hname;
    cbn [pages_after].
  - constructor.
  - cbn [along forallb] in Hoff, Hreset, Hname.
    apply andb_prop in Hoff. destruct Hoff as [Ho Hoff].
    apply andb_prop in Hreset. destruct Hreset as [Hr Hreset].
    apply andb_prop in Hname. destruct Hname as [Hn Hname].
    pose proof (happen_coherent e p Hp Ho Hr Hn) as Hnext.
    constructor; [exact Hnext | exact (IH _ Hnext Hoff Hreset Hname)].
Qed.

(** C1, as stated, fails: the page keeps New Session available while a
    chat request is in flight.  When the session is reset before the
    answer arrives, [sendMessage] completes on the emptied page and
    appends its assistant turn: [sessionId] is [''] and [subject] is
    [null], but the history is not empty.  Every action of this run is
    offered by the page and the analysis names its session. *)
Lemma C1_counterexample :
  along start_offered reset_before_answer fresh = true
  /\ forallb names_session reset_before_answer = true
  /\ showsNewSession
       (cells (page_after (firstn 3 reset_before_answer) fresh)) = true
  /\ ~ Forall (fun p => session_consistent (cells p))
         (pages_after reset_before_answer fresh).
Proof.
  split; [reflexivity | split; [reflexivity | split; [reflexivity |]]].
  intros H. unfold reset_before_answer in H. cbn [pages_after] in H.
  do 4 apply Forall_inv_tail in H. apply Forall_inv in H.
  destruct H as [_ H]. vm_compute in H. discriminate.
Qed.

(** C1 (amended): in every run of the page, user actions (starting a
    session, sending a message or clicking a suggestion, refreshing the
    suggestions, resetting, toggling, typing) interleaved in any way with
    the replies to the requests in flight, in which a session is started
    only while the page offers it (no session active), no reset is
    confirmed while a chat request is in flight, and every successful
    analysis carries a non-empty session identifier, the three conditions
    [sessionId == ''], [subject == null] and "history is empty" are all
    true or all false after every event, in particular after each
    operation completes. *)
Theorem C1_session_invariant (es : list Event) :
  along start_offered es fresh = true ->
  along (reset_clear_of is_chat) es fresh = true ->
  forallb names_session es = true ->
  Forall (fun p => session_consistent (cells p)) (pages_after es fresh).
Proof.
  intros Hoff Hreset Hname.
  apply Forall_impl with (P := coherent).
  - intros p (_ & Hc & _). exact Hc.
  - apply pages_after_coherent; [exact fresh_coherent | assumption ..].
Qed.

Lemma C1_session_invariant_witness :
  along start_offered overlapping_questions fresh = true /\
  along (reset_clear_of is_chat) overlapping_questions fresh = true /\
  forallb names_session overlapping_questions = true /\
  Forall (fun p => session_consistent (cells p))
         (pages_after overlapping_questions fresh).
Proof.
  split; [reflexivity | split; [reflexivity | split; [reflexivity |]]].
  apply (C1_session_invariant overlapping_questions); reflexivity.
Defined.

Lemma clear_of_chat (p : Page) (e : Event) :
  reset_clear_of is_chat_or_suggest p e = true ->
  reset_clear_of is_chat p e = true
  /\ reset_clear_of is_suggest p e = true.
Proof.
  destruct e as [[ | | | | [|] | | ] |]; cbn [reset_clear_of];
    try (split; reflexivity).
  unfold is_chat_or_suggest.
  induction (outstanding p) as [| pd l IH]; cbn [existsb];
    [split; reflexivity |].
  destruct (is_chat pd), (is_suggest pd); cbn; try discriminate.
  exact IH.
Qed.

Lemma no_session_nothing_in_flight (kind : Pending -> bool) (p : Page) :
  (existsb kind (outstanding p) = true ->
   truthy (sessionId (cells p)) = true) ->
  sessionId (cells p) = [] ->
  existsb kind (outstanding p) = false.
Proof.
  intros H E. destruct (existsb kind (outstanding p)); [| reflexivity].
  specialize (H eq_refl). rewrite E in H. discriminate.
Qed.

Lemma act_tidy (a : Action) (p : Page) :
  tidy p ->
  start_offered p (Act a) = true ->
  reset_clear_of is_chat_or_suggest p (Act a) = true ->
  tidy (act a p).
Proof.
  intros (Hco & Hb & Hs) Hoff Hreset.
  destruct (clear_of_chat p _ Hreset) as [Hrc Hrs].
  split; [exact (act_coherent a p Hco Hoff Hrc) |].
  destruct p as [st out].
  cbn [cells outstanding start_offered reset_clear_of] in *.
  destruct a as [url | mt | s | | answer | | text];
    unfold act, suspend, sync; cbn [cells outstanding].
  - unfold showsUrlForm in Hoff.
    pose proof (no_session_nothing_in_flight is_suggest
                  {| cells := st; outstanding := out |} Hs) as Hnone.
    destruct st as [u sid subj busy hist msg sugg vis]. cells_simpl.
    destruct sid as [| c sid]; [| discriminate].
    specialize (Hnone eq_refl). run.
    destruct url as [| c url]; cells_simpl; rewrite existsb_app, Hnone;
      (split; [| cbn; discriminate]).
    + exact Hb.
    + reflexivity.
  - destruct (send_prefix mt st) as (Hid & _ & Hsg & _).
    rewrite Hid, Hsg, existsb_app.
    split; [exact Hb |].
    destruct (value_of (sendMessage mt st)) as [[req k] |]; cbn;
      rewrite ?orb_false_r; exact Hs.
  - destruct (click_prefix s st) as (Hid & _ & Hsg & _).
    rewrite Hid, Hsg, existsb_app.
    split; [exact Hb |].
    destruct (value_of (clickSuggestion s st)) as [[req k] |]; cbn;
      rewrite ?orb_false_r; exact Hs.
  - destruct st as [u sid subj busy hist msg sugg vis]. run.
    destruct sid as [| c sid]; cells_simpl.
    + rewrite app_nil_r. split; assumption.
    + split; [discriminate | reflexivity].
  - destruct st as [u sid subj busy hist msg sugg vis]. run.
    destruct answer; cells_simpl.
    + split; [reflexivity |].
      intros E. rewrite E in Hrs. discriminate.
    + split; assumption.
  - destruct st as [u sid subj busy hist msg sugg vis].
    split; assumption.
  - destruct st as [u sid subj busy hist msg sugg vis].
    split; assumption.
Qed.

Lemma nth_suggest_in_flight (l : list Pending) (i : nat)
    (k : Outcome Data.suggest -> M unit) :
  nth_error l i = Some (AwaitSuggest k) -> existsb is_suggest l = true.
Proof.
  intros E. apply existsb_exists. exists (AwaitSuggest k).
  split; [exact (nth_error_In _ _ E) | reflexivity].
Qed.

Lemma deliver_tidy (i : nat) (r : Reply) (p : Page) :
  tidy p ->
  names_session (Deliver i r) = true ->
  tidy (deliver i r p).
Proof.
  intros (Hco & Hb & Hs) Hname.
  split; [exact (deliver_coherent i r p Hco Hname) |].
  destruct Hco as (Hh & _).
  unfold deliver.
  destruct (nth_error (outstanding p) i) as [pd |] eqn:E;
    [| split; assumption].
  pose proof (nth_from_handler p i pd Hh E) as Hpd.
  destruct pd as [k | k | k]; destruct r as [o | o | o];
    try (split; assumption);
    cbn [cells outstanding from_handler] in *.
  - destruct Hpd as (st0 & req & Hk).
    rewrite (analyze_reply st0 req k Hk).
    destruct o as [[data | detail] | m]; cbn [names_session] in Hname;
      cells_simpl.
    + rewrite Hname. split; [| reflexivity].
      intros E'. rewrite E' in Hname. discriminate.
    + split; [exact Hb |].
      intros H. apply Hs. exact (remove_nth_existsb _ _ _ H).
    + split; [exact Hb |].
      intros H. apply Hs. exact (remove_nth_existsb _ _ _ H).
  - destruct Hpd as (mt & st0 & req & Hk).
    rewrite (chat_reply mt st0 req k Hk). cells_simpl.
    split; [exact Hb |].
    intros H. apply Hs. exact (remove_nth_existsb _ _ _ H).
  - destruct Hpd as (st0 & req & Hk).
    rewrite (suggest_reply st0 req k Hk).
    pose proof (Hs (nth_suggest_in_flight _ _ _ E)) as Hsid.
    destruct o as [[data | detail] | m]; cells_simpl.
    + split; [| intros _; exact Hsid].
      intros E'. rewrite E' in Hsid. discriminate.
    + split; [exact Hb | intros _; exact Hsid].
    + split; [exact Hb | intros _; exact Hsid].
Qed.

Lemma fresh_tidy : tidy fresh.
Proof.
  split; [exact fresh_coherent |].
  split; [reflexivity | discriminate].
Qed.

Lemma pages_after_tidy (es : list Event) :
  forall p,
    tidy p ->
    along start_offered es p = true ->
    along (reset_clear_of is_chat_or_suggest) es p = true ->
    forallb names_session es = true ->
    Forall tidy (pages_after es p).
Proof.
  induction es as [| e es IH]; intros p Hp Hoff Hreset Hname;
    cbn [pages_after].
  - constructor.
  - cbn [along forallb] in Hoff, Hreset, Hname.
    apply andb_prop in Hoff. destruct Hoff as [Ho Hoff].
    apply andb_prop in Hreset. destruct Hreset as [Hr Hreset].
    apply andb_prop in Hname. destruct Hname as [Hn Hname].
    assert (Hnext : tidy (happen e p)).
    { destruct e as [a | i r].
      - exact (act_tidy a p Hp Ho Hr).
      - exact (deliver_tidy i r p Hp Hn). }
    constructor; [exact Hnext | exact (IH _ Hnext Hoff Hreset Hname)].
Qed.

Lemma tidy_blank (p : Page) : tidy p -> blank_without_session (cells p).
Proof.
  intros ((_ & [H1 H2] & _ & _) & Hb & _) E.
  unfold no_id, no_subject, no_history in H1, H2.
  rewrite E in H1. cbn in H1.
  destruct (subject (cells p)); [discriminate |].
  destruct (chatHistory (cells p)); [| discriminate].
  repeat split. exact (Hb E).
Qed.

(** X1: in every run of the page, user actions interleaved in any way with
    the replies to the requests in flight, in which a session is started
    only while the page offers it, no reset is confirmed while a chat or
    suggestions request is in flight, and successful analyses name their
    session, a page without session holds no session data after any
    event: no subject, no history and no suggestions. *)
Theorem X1_no_session_no_data (es : list Event) :
  along start_offered es fresh = true ->
  along (reset_clear_of is_chat_or_suggest) es fresh = true ->
  forallb names_session es = true ->
  Forall (fun p => blank_without_session (cells p)) (pages_after es fresh).
Proof.
  intros Hoff Hreset Hname.
  apply Forall_impl with (P := tidy); [exact tidy_blank |].
  apply pages_after_tidy; [exact fresh_tidy | assumption ..].
Qed.

Lemma X1_no_session_no_data_witness :
  along start_offered overlapping_questions fresh = true /\
  along (reset_clear_of is_chat_or_suggest) overlapping_questions fresh
  = true /\
  forallb names_session overlapping_questions = true /\
  Forall (fun p => blank_without_session (cells p))
         (pages_after overlapping_questions fresh).
Proof.
  split; [reflexivity | split; [reflexivity | split; [reflexivity |]]].
  apply (X1_no_session_no_data overlapping_questions); reflexivity.
Defined.

(** X2: in every run of the page, with actions and replies interleaved in
    any way, in which a session is started only while the page offers it,
    no reset is confirmed while a chat request is in flight, and
    successful analyses name their session, after every event the history
    is empty when no subject is stored and otherwise opens with the
    welcome turn written for the stored subject. *)
Theorem X2_history_opens_with_welcome (es : list Event) :
  along start_offered es fresh = true ->
  along (reset_clear_of is_chat) es fresh = true ->
  forallb names_session es = true ->
  Forall (fun p => welcomed (cells p)) (pages_after es fresh).
Proof.
  intros Hoff Hreset Hname.
  apply Forall_impl with (P := coherent).
  - intros p (_ & _ & Hw & _). exact Hw.
  - apply pages_after_coherent; [exact fresh_coherent | assumption ..].
Qed.

Lemma X2_history_opens_with_welcome_witness :
  along start_offered (firstn 7 overlapping_questions) fresh = true /\
  along (reset_clear_of is_chat) (firstn 7 overlapping_questions) fresh
  = true /\
  forallb names_session (firstn 7 overlapping_questions) = true /\
  Forall (fun p => welcomed (cells p))
         (pages_after (firstn 7 overlapping_questions) fresh).
Proof.
  split; [reflexivity | split; [reflexivity | split; [reflexivity |]]].
  apply (X2_history_opens_with_welcome (firstn 7 overlapping_questions));
    reflexivity.
Defined.

Lemma chat_prefix_paced (h : Async Data.chat) (st : State) :
  chat_prefix_facts h st ->
  answersGiven st <= S (questionsAsked st) ->
  answersGiven (state_of (h st))
  + (if existsb is_chat
          ([] ++ match value_of (h st) with
                 | Some (_, k) => [AwaitChat k]
                 | None => []
                 end) then 1 else 0)
  <= S (questionsAsked (state_of (h st)))
  /\ List.length ([] ++ match value_of (h st) with
                        | Some (_, k) => [AwaitChat k]
                        | None => []
                        end) <= 1.
Proof.
  unfold answersGiven, questionsAsked.
  intros (_ & _ & _ & [(Hv & Hh & _) | (Hv & _ & _ & t & Ht & Hh)]) H.
  - rewrite Hv, Hh. cbn. lia.
  - assert (Hu : is_user t = true) by (unfold is_user; rewrite Ht; reflexivity).
    assert (Ha : is_assistant t = false)
      by (unfold is_assistant; rewrite Ht; reflexivity).
    rewrite Hh, !count_snoc, Hu, Ha.
    destruct (value_of (h st)) as [[req k] |]; [| now elim Hv].
    cbn [app existsb is_chat orb List.length]. lia.
Qed.

Lemma act_paced (a : Action) (p : Page) :
  paced p ->
  one_at_a_time p (Act a) = true ->
  paced (act a p).
Proof.
  intros (Hh & Hlen & Hcount) Hone.
  split; [exact (act_keeps_handlers a p Hh) |].
  destruct p as [st out]. cbn [cells outstanding one_at_a_time] in *.
  destruct out as [| pd out]; [| discriminate].
  cbn [existsb] in Hcount.
  assert (Hroom : answersGiven st <= S (questionsAsked st)) by lia.
  clear Hcount.
  destruct a as [url | mt | s | | answer | | text];
    unfold act, suspend, sync; cbn [cells outstanding].
  - destruct st as [u sid subj busy hist msg sugg vis].
    unfold answersGiven, questionsAsked in *. run.
    destruct url as [| c url]; cells_simpl; cbn; lia.
  - destruct (chat_prefix_paced _ st (send_prefix mt st) Hroom).
    split; assumption.
  - destruct (chat_prefix_paced _ st (click_prefix s st) Hroom).
    split; assumption.
  - destruct st as [u sid subj busy hist msg sugg vis].
    unfold answersGiven, questionsAsked in *. run.
    destruct sid as [| c sid]; cells_simpl; cbn; lia.
  - destruct st as [u sid subj busy hist msg sugg vis].
    unfold answersGiven, questionsAsked in *. run.
    destruct answer; cells_simpl; cbn; lia.
  - destruct st as [u sid subj busy hist msg sugg vis].
    unfold answersGiven, questionsAsked in *. run. cbn. lia.
  - destruct st as [u sid subj busy hist msg sugg vis].
    unfold answersGiven, questionsAsked in *. run. cbn. lia.
Qed.

Lemma deliver_paced (i : nat) (r : Reply) (p : Page) :
  paced p -> paced (deliver i r p).
Proof.
  intros (Hh & Hlen & Hcount).
  split; [exact (deliver_keeps_handlers i r p Hh) |].
  unfold deliver.
  destruct (nth_error (outstanding p) i) as [pd |] eqn:E;
    [| split; assumption].
  pose proof (nth_from_handler p i pd Hh E) as Hpd.
  destruct (outstanding p) as [| pd0 [| pd1 out]] eqn:Eout;
    [destruct i; discriminate | | cbn in Hlen; lia].
  destruct i as [| i]; [| destruct i; discriminate].
  cbn [nth_error] in E. injection E as ->.
  destruct pd as [k | k | k]; destruct r as [o | o | o];
    try (rewrite Eout; split; assumption);
    cbn [cells outstanding from_handler remove_nth existsb is_chat orb]
      in *;
    unfold answersGiven, questionsAsked in *.
  - destruct Hpd as (st0 & req & Hk).
    rewrite (analyze_reply st0 req k Hk).
    destruct o as [[data | detail] | m]; cells_simpl; cbn; lia.
  - destruct Hpd as (mt & st0 & req & Hk).
    rewrite (chat_reply mt st0 req k Hk). cells_simpl.
    destruct o as [[data | detail] | m]; rewrite ?count_snoc; cbn; lia.
  - destruct Hpd as (st0 & req & Hk).
    rewrite (suggest_reply st0 req k Hk).
    destruct o as [[data | detail] | m]; cells_simpl; cbn; lia.
Qed.

Lemma fresh_paced : paced fresh.
Proof. split; [constructor | cbn; lia]. Qed.

Lemma pages_after_paced (es : list Event) :
  forall p,
    paced p ->
    along one_at_a_time es p = true ->
    Forall paced (pages_after es p).
Proof.
  induction es as [| e es IH]; intros p Hp Hone; cbn [pages_after].
  - constructor.
  - cbn [along] in Hone. apply andb_prop in Hone. destruct Hone as [Ho Hone].
    assert (Hnext : paced (happen e p)).
    { destruct e as [a | i r].
      - exact (act_paced a p Hp Ho).
      - exact (deliver_paced i r p Hp). }
    constructor; [exact Hnext | exact (IH _ Hnext Hone)].
Qed.

(** X4: in every run in which the user acts only when no request is in
    flight, whatever the actions (offered by the page or not) and whatever
    the replies, after every event the history holds at most one assistant
    turn more than user turns: the welcome, and at most one answer per
    question. *)
Theorem X4_at_most_one_answer_per_question (es : list Event) :
  along one_at_a_time es fresh = true ->
  Forall (fun p => answersGiven (cells p) <= S (questionsAsked (cells p)))
         (pages_after es fresh).
Proof.
  intros Hone.
  apply Forall_impl with (P := paced).
  - intros p (_ & _ & H). lia.
  - apply pages_after_paced; [exact fresh_paced | exact Hone].
Qed.

Lemma X4_at_most_one_answer_per_question_witness :
  along one_at_a_time (flat_map alone sample_ops) fresh = true /\
  Forall (fun p => answersGiven (cells p) <= S (questionsAsked (cells p)))
         (pages_after (flat_map alone sample_ops) fresh).
Proof.
  split; [reflexivity |].
  apply (X4_at_most_one_answer_per_question (flat_map alone sample_ops)).
  reflexivity.
Defined.

(** Two suggestions clicked in a row and a reset before their answers
    arrive: two assistant turns and no user turn. *)
Lemma overlapping_answers_outnumber_questions :
  let es :=
    [ Act (DoStart (lit "https://x/watch?v=abc"));
      Deliver 0 (ReplyAnalyze (Resolved (Success loops_reply)));
      Act (DoClickSuggestion (lit "What is a loop?"));
      Act (DoClickSuggestion (lit "What is a loop?"));
      Act (DoReset true);
      Deliver 0 (ReplyChat (Resolved (Success (Data.mkChat (lit "One.")))));
      Deliver 0 (ReplyChat (Resolved (Success (Data.mkChat (lit "Two."))))) ]
  in
  answersGiven (cells (page_after es fresh)) = 2
  /\ questionsAsked (cells (page_after es fresh)) = 0.
Proof. split; reflexivity. Qed.

(** ** The busy flag with requests in flight *)

Lemma loading_disables (st : State) :
  loading st = true -> controlsDisabled st = true.
Proof.
  unfold controlsDisabled, analyzeDisabled, sendDisabled, refreshDisabled,
    inputDisabled.
  intros ->. reflexivity.
Qed.

Lemma act_keeps_loading (a : Action) (p : Page) :
  loading (cells p) = true -> loading (cells (act a p)) = true.
Proof.
  destruct p as [st out]. destruct st as [u sid subj busy hist msg sugg vis].
  cbn [cells loading]. intros ->.
  destruct a as [url | mt | s | | answer | | text];
    unfold act, suspend, sync, clickSuggestion; cbn [cells]; run.
  - destruct url; reflexivity.
  - destruct (negb (truthy (trim (or_undef mt msg))) || negb (truthy sid));
      reflexivity.
  - destruct (negb (truthy (trim (or_undef (Some s) msg)))
              || negb (truthy sid)); reflexivity.
  - destruct sid; reflexivity.
  - destruct answer; reflexivity.
  - reflexivity.
  - reflexivity.
Qed.

Lemma request_sets_loading (a : Action) (p : Page) :
  List.length (outstanding (act a p)) = S (List.length (outstanding p)) ->
  loading (cells (act a p)) = true.
Proof.
  destruct p as [st out]. destruct st as [u sid subj busy hist msg sugg vis].
  destruct a as [url | mt | s | | answer | | text];
    unfold act, suspend, sync, clickSuggestion; cbn [cells outstanding];
    rewrite ?length_app; run.
  - destruct url; cbn; [lia | reflexivity].
  - destruct (negb (truthy (trim (or_undef mt msg))) || negb (truthy sid));
      cbn; [lia | reflexivity].
  - destruct (negb (truthy (trim (or_undef (Some s) msg)))
              || negb (truthy sid)); cbn; [lia | reflexivity].
  - destruct sid; cbn; [lia | reflexivity].
  - lia.
  - lia.
  - lia.
Qed.

(** X10: when an action issues a request, [loading] is true at once and
    stays true through whatever the user does next, so the start, send and
    refresh buttons and the message input are disabled from that moment
    until a reply is delivered. *)
Theorem X10_controls_disabled_until_reply
    (a : Action) (es : list Event) (p : Page) :
  List.length (outstanding (act a p)) = S (List.length (outstanding p)) ->
  forallb is_act es = true ->
  Forall (fun q => controlsDisabled (cells q) = true)
         (act a p :: pages_after es (act a p)).
Proof.
  intros Hreq Hacts.
  pose proof (request_sets_loading a p Hreq) as Hl.
  constructor; [exact (loading_disables _ Hl) |].
  revert Hl. generalize (act a p). clear Hreq.
  induction es as [| e es IH]; intros q Hl; cbn [pages_after].
  - constructor.
  - cbn [forallb] in Hacts. apply andb_prop in Hacts.
    destruct Hacts as [He Hacts].
    destruct e as [a' | i r]; [| discriminate].
    pose proof (act_keeps_loading a' q Hl) as Hl'.
    constructor; [exact (loading_disables _ Hl') | exact (IH Hacts _ Hl')].
Qed.

Lemma X10_controls_disabled_until_reply_witness :
  List.length (outstanding (act (DoSend None)
                              {| cells := drafting; outstanding := [] |}))
  = 1 /\
  Forall (fun q => controlsDisabled (cells q) = true)
    (act (DoSend None) {| cells := drafting; outstanding := [] |}
     :: pages_after
          [ Act DoToggle; Act (DoClickSuggestion (lit "What is a loop?"));
            Act (DoReset true);
            Act (DoStart (lit "https://x/watch?v=abc")) ]
          (act (DoSend None) {| cells := drafting; outstanding := [] |})).
Proof.
  split; [reflexivity |].
  apply (X10_controls_disabled_until_reply (DoSend None)
           [ Act DoToggle; Act (DoClickSuggestion (lit "What is a loop?"));
             Act (DoReset true);
             Act (DoStart (lit "https://x/watch?v=abc")) ]
           {| cells := drafting; outstanding := [] |});
    reflexivity.
Defined.

Lemma page_after_handlers (es : list Event) :
  forall p,
    Forall from_handler (outstanding p) ->
    Forall from_handler (outstanding (page_after es p)).
Proof.
  unfold page_after.
  induction es as [| e es IH]; intros p H; cbn [fold_left]; [exact H |].
  apply IH. destruct e as [a | i r].
  - exact (act_keeps_handlers a p H).
  - exact (deliver_keeps_handlers i r p H).
Qed.

(** X17: every reply that is delivered clears [loading], however many
    other requests are still in flight: the controls are enabled again
    while those are outstanding. *)
Theorem X17_any_reply_clears_loading
    (es : list Event) (i : nat) (r : Reply) :
  let p := page_after es fresh in
  List.length (outstanding (deliver i r p)) < List.length (outstanding p) ->
  loading (cells (deliver i r p)) = false.
Proof.
  intros p.
  assert (Hh : Forall from_handler (outstanding p))
    by (apply page_after_handlers; constructor).
  unfold deliver.
  destruct (nth_error (outstanding p) i) as [pd |] eqn:E; [| lia].
  pose proof (nth_from_handler p i pd Hh E) as Hpd.
  destruct pd as [k | k | k]; destruct r as [o | o | o]; try lia;
    cbn [cells outstanding from_handler] in *; intros _.
  - destruct Hpd as (st0 & req & Hk).
    rewrite (analyze_reply st0 req k Hk).
    destruct o as [[data | detail] | m]; reflexivity.
  - destruct Hpd as (mt & st0 & req & Hk).
    rewrite (chat_reply mt st0 req k Hk). reflexivity.
  - destruct Hpd as (st0 & req & Hk).
    rewrite (suggest_reply st0 req k Hk).
    destruct o as [[data | detail] | m]; reflexivity.
Qed.

Lemma X17_any_reply_clears_loading_witness :
  let es := [ Act (DoStart (lit "https://x/watch?v=abc"));
              Act (DoStart (lit "https://x/watch?v=abc")) ] in
  let r := ReplyAnalyze (Threw (lit "Failed to fetch")) in
  List.length (outstanding (page_after es fresh)) = 2 /\
  List.length (outstanding (deliver 1 r (page_after es fresh))) = 1 /\
  controlsDisabled (cells (deliver 1 r (page_after es fresh))) = false /\
  loading (cells (deliver 1 r (page_after es fresh))) = false.
Proof.
  cbv zeta.
  split; [reflexivity | split; [reflexivity | split; [reflexivity |]]].
  apply (X17_any_reply_clears_loading
           [ Act (DoStart (lit "https://x/watch?v=abc"));
             Act (DoStart (lit "https://x/watch?v=abc")) ]
           1 (ReplyAnalyze (Threw (lit "Failed to fetch")))).
  vm_compute. lia.
Defined.

(** An operation run on its own, from a page with nothing in flight, is
    the operation of [step]. *)
Lemma alone_is_step (op : Op) (st : State) :
  page_after (alone op) {| cells := st; outstanding := [] |}
  = {| cells := step op st; outstanding := [] |}.
Proof.
  destruct st as [u sid subj busy hist msg sugg vis].
  destruct op as [url o | mt o | o | answer |];
    unfold page_after, alone, happen, act, deliver, suspend, sync;
    cbn [fold_left cells outstanding app]; run.
  - destruct url as [| c url]; cbn; [reflexivity |].
    destruct o as [[data | detail] | m]; reflexivity.
  - destruct (negb (truthy (trim (or_undef mt msg))) || negb (truthy sid));
      cbn; [reflexivity |].
    destruct o as [[data | detail] | m]; reflexivity.
  - destruct sid as [| c sid]; cbn; [reflexivity |].
    destruct o as [[data | detail] | m]; reflexivity.
  - destruct answer; reflexivity.
  - reflexivity.
Qed.
